(** * frontend-chatbot: the client-side message synchronisation core

    A shallow embedding of the JavaScript of the repository:
    - [ChatWindow.jsx] (user widget): [sendMessage], [handleMessage] and the
      session initialisation effect, as listed in the README;
    - [AdminDashboard.jsx] (operator): [handleSessionsList] and [sendReply];
    - [socket.js]: the two listed option objects of the shared socket;
    - [chatApi.js]: [getChats], [getChatMessages];
    - [chatgpt.jsx]: [ChatGPTService.generateResponse];
    - [MessageBubble.jsx]: the operator's message bubble.

    React state is a record, a state setter is a record update, and every
    outward effect (a [socket.emit], a [localStorage.setItem], a [fetch]) is
    appended to a chronological log.  What the environment supplies (the
    clock, [Math.random], the network's answers) is an argument. *)

From Stdlib Require Import NArith ZArith QArith List String Ascii DecimalString DecimalN Lia.
From stdpp Require Import base option list gmap strings.

Set Warnings "-register-all".

Local Open Scope string_scope.
Local Open Scope N_scope.
Local Open Scope list_scope.

(** ** JavaScript values *)

Module Js.

(** A JavaScript string is a sequence of UTF-16 code units. *)
Abbreviation jsstring := (list N).

(** A string literal of the source text (ASCII) as code units. *)
Definition lit (s : string) : jsstring :=
  (fun a => N_of_ascii a) <$> list_ascii_of_string s.

(** The primitive values that occur in the event payloads.  Numbers are
    kept apart (see [decimal]); the message and roster fields the handlers
    compare are strings. *)
Inductive JsVal : Type :=
  | JUndefined
  | JNull
  | JBool (b : bool)
  | JStr (s : jsstring).

#[global] Instance JsVal_eq_dec : EqDecision JsVal.
Proof. solve_decision. Defined.

(** A plain object: own properties by name. *)
Abbreviation JsObj := (gmap string JsVal).

(** [ob.k]: a missing property reads as [undefined]. *)
Definition get (k : string) (ob : JsObj) : JsVal :=
  default JUndefined (ob !! k).

(** [a === b] on these values (no NaN among them). *)
Definition strictEq (a b : JsVal) : bool := bool_decide (a = b).

(** ToBoolean. *)
Definition truthy (v : JsVal) : bool :=
  match v with
  | JUndefined | JNull => false
  | JBool b => b
  | JStr [] => false
  | JStr (_ :: _) => true
  end.

(** ECMAScript WhiteSpace and LineTerminator code points, the characters
    [String.prototype.trim] strips. *)
Definition isWhiteSpace (c : N) : bool :=
  (c =? 9) || (c =? 10) || (c =? 11) || (c =? 12) || (c =? 13) || (c =? 32)
  || (c =? 160) || (c =? 5760) || ((8192 <=? c) && (c <=? 8202))
  || (c =? 8232) || (c =? 8233) || (c =? 8239) || (c =? 8287)
  || (c =? 12288) || (c =? 65279).

Fixpoint trimStart (s : jsstring) : jsstring :=
  match s with
  | [] => []
  | c :: r => if isWhiteSpace c then trimStart r else s
  end.

Definition trimEnd (s : jsstring) : jsstring :=
  reverse (trimStart (reverse s)).

(** [s.trim()] *)
Definition trim (s : jsstring) : jsstring := trimEnd (trimStart s).

(** A text the send handlers ignore: [text.trim()] is falsy. *)
Definition blank (text : jsstring) : bool := negb (truthy (JStr (trim text))).

(** Of a list of calls [(text, now)], those a send handler acts on. *)
Definition sent (calls : list (jsstring * jsstring)) : list (jsstring * jsstring) :=
  List.filter (fun call => negb (blank call.1)) calls.

(** Number-to-string of a non-negative integer, as a template literal
    does for [Date.now()] or an HTTP status. *)
Definition decimal (n : N) : jsstring :=
  lit (NilEmpty.string_of_uint (N.to_uint n)).

(** [s.substr(start, len)] for non-negative arguments. *)
Definition substr (start len : nat) (s : jsstring) : jsstring :=
  take len (drop start s).

(** [a.slice(-n)]: the last [n] elements, all of them when there are fewer. *)
Definition sliceLast {A} (n : nat) (a : list A) : list A :=
  drop (length a - n)%nat a.

End Js.
Import Js.

(** ** Outward effects *)

(** [socket.emit(event, payload, ack)] and [localStorage.setItem(key, value)],
    in the order the code performs them. *)
Inductive Effect : Type :=
  | Emit (event : string) (payload : option (gmap string JsVal)) (ack : bool)
  | SetItem (key : string) (value : jsstring).

(** ** ChatWindow.jsx: the user widget *)

Module ChatWindow.

(** The component's state ([useState]) together with the browser's
    [localStorage] and the log of effects. *)
Record State : Type := mkState {
  messages : list (gmap string JsVal);
  messageText : jsstring;
  currentSessionId : JsVal;
  localStorage : gmap string jsstring;
  effects : list Effect
}.

(** The state a freshly mounted widget has over a given storage. *)
Definition mount (storage : gmap string jsstring) : State :=
  mkState [] [] JNull storage [].

(** The role this client sends under: the [sender] of the literal
    [sendMessage] builds. *)
Definition ownRole : jsstring := lit "user".
(** The role [handleMessage] lets through. *)
Definition peerRole : jsstring := lit "admin".

(** [sendMessage]; [now] is [new Date().toISOString()]. *)
Definition sendMessage (now : jsstring) (st : State) : State :=
  if truthy (JStr (trim (messageText st))) then
    let userMessage : gmap string JsVal :=
      {[ "sender" := JStr ownRole;
         "content" := JStr (trim (messageText st));
         "createdAt" := JStr now ]} in
    mkState (messages st ++ [userMessage])
            []
            (currentSessionId st)
            (localStorage st)
            (effects st ++
               [Emit "user_message"
                     (Some {[ "sessionId" := currentSessionId st;
                              "content" := JStr (trim (messageText st)) ]})
                     false])
  else st.

(** The input's [onChange]: [setMessageText(e.target.value)]. *)
Definition setMessageText (text : jsstring) (st : State) : State :=
  mkState (messages st) text (currentSessionId st) (localStorage st) (effects st).

(** The spec's [appendLocal(content, 'user')]: the user types [content]
    and submits. *)
Definition appendLocal (content now : jsstring) (st : State) : State :=
  sendMessage now (setMessageText content st).

(** [handleMessage], the subscriber of the socket's [message] event. *)
Definition handleMessage (message : gmap string JsVal) (st : State) : State :=
  if strictEq (get "sender" message) (JStr peerRole) then
    mkState (messages st ++ [message]) (messageText st) (currentSessionId st)
            (localStorage st) (effects st)
  else st.

(** The spec's [mergeIncoming]. *)
Definition mergeIncoming := handleMessage.

(** The storage key of the session identifier. *)
Definition sessionKey : string := "chatSessionId".

(** [localStorage.getItem(key)]: the stored string, or [null]. *)
Definition getItem (key : string) (storage : gmap string jsstring) : JsVal :=
  match storage !! key with
  | Some s => JStr s
  | None => JNull
  end.

(** [`session_${Date.now()}_${Math.random().toString(36).substr(2, 9)}`];
    [nowMs] is [Date.now()] and [rnd36] is [Math.random().toString(36)]. *)
Definition synthesize (nowMs : N) (rnd36 : jsstring) : jsstring :=
  lit "session_" ++ decimal nowMs ++ lit "_" ++ substr 2 9 rnd36.

(** The session initialisation effect, run once per mount. *)
Definition initSession (nowMs : N) (rnd36 : jsstring) (st : State) : State :=
  let stored := getItem sessionKey (localStorage st) in
  if negb (truthy stored) then
    let sessionId := synthesize nowMs rnd36 in
    mkState (messages st) (messageText st) (JStr sessionId)
            (<[sessionKey := sessionId]> (localStorage st))
            (effects st ++
               [SetItem sessionKey sessionId;
                Emit "init_session" (Some {[ "sessionId" := JStr sessionId ]}) true])
  else
    mkState (messages st) (messageText st) stored
            (localStorage st)
            (effects st ++
               [Emit "init_session" (Some {[ "sessionId" := stored ]}) true]).

End ChatWindow.


(** ** AdminDashboard.jsx: the operator's dashboard *)

Module AdminDashboard.

Record State : Type := mkState {
  sessions : list (gmap string JsVal);
  selectedSession : option (gmap string JsVal);   (* [null] is [None] *)
  sessionMessages : list (gmap string JsVal);
  replyText : jsstring;
  effects : list Effect
}.

(** The role [sendReply] sends under. *)
Definition ownRole : jsstring := lit "admin".

Definition setSessions (l : list (gmap string JsVal)) (st : State) : State :=
  mkState l (selectedSession st) (sessionMessages st) (replyText st) (effects st).

Definition setSelectedSession (s : option (gmap string JsVal)) (st : State) : State :=
  mkState (sessions st) s (sessionMessages st) (replyText st) (effects st).

Definition setReplyText (text : jsstring) (st : State) : State :=
  mkState (sessions st) (selectedSession st) (sessionMessages st) text (effects st).

(** [s => s.sessionId === selectedSession.sessionId] *)
Definition sameSession (sel s : gmap string JsVal) : bool :=
  strictEq (get "sessionId" s) (get "sessionId" sel).

(** [handleSessionsList], the subscriber of [sessions-list].  An object is
    always truthy, so [if (updatedSession)] asks whether [find] found one. *)
Definition handleSessionsList (sessionsList : list (gmap string JsVal))
    (st : State) : State :=
  let st1 := setSessions sessionsList st in
  match selectedSession st with
  | Some sel =>
      match List.find (sameSession sel) sessionsList with
      | Some updatedSession => setSelectedSession (Some updatedSession) st1
      | None => st1
      end
  | None => st1
  end.

(** [sendReply]; [now] is [new Date().toISOString()]. *)
Definition sendReply (now : jsstring) (st : State) : State :=
  match truthy (JStr (trim (replyText st))), selectedSession st with
  | true, Some sel =>
      let adminMessage : gmap string JsVal :=
        {[ "sender" := JStr ownRole;
           "content" := JStr (trim (replyText st));
           "createdAt" := JStr now ]} in
      mkState (sessions st) (selectedSession st)
              (sessionMessages st ++ [adminMessage])
              []
              (effects st ++
                 [Emit "admin_message"
                       (Some {[ "sessionId" := get "sessionId" sel;
                                "content" := JStr (trim (replyText st)) ]})
                       false])
  | _, _ => st
  end.

(** The spec's [appendLocal(content, 'admin')]: the operator types
    [content] and submits. *)
Definition appendLocal (content now : jsstring) (st : State) : State :=
  sendReply now (setReplyText content st).

End AdminDashboard.

(** ** socket.js: the shared socket's options *)

Module Socket.

(** [reconnectionAttempts] is a number, [Infinity] included. *)
Inductive Count : Type := Finite (n : N) | Infinity.

(** The options object handed to [io(url, options)]; an option the literal
    does not set is [None]. *)
Record Options : Type := mkOptions {
  transports : option (list string);
  reconnection : option bool;
  reconnectionAttempts : option Count;
  reconnectionDelay : option N;
  timeout : option N
}.

Definition url : string := "http://localhost:4000".

(** The listing under "Connection Management". *)
Definition connectionManagement : Options :=
  mkOptions (Some ["websocket"; "polling"]) (Some true) (Some (Finite 5))
            (Some 1000) None.

(** The listing under "Socket Client Setup (socket.js)". *)
Definition clientSetup : Options :=
  mkOptions (Some ["websocket"; "polling"]) None None None (Some 20000).

(** What the spec says of the configuration, option by option. *)
Definition websocketThenPolling (o : Options) : Prop :=
  transports o = Some ["websocket"; "polling"].
Definition reconnectionEnabled (o : Options) : Prop :=
  reconnection o = Some true.
Definition boundedAttempts (o : Options) : Prop :=
  exists n, reconnectionAttempts o = Some (Finite n).
Definition fixedDelay (o : Options) : Prop :=
  exists d, reconnectionDelay o = Some d.

Definition asSpecified (o : Options) : Prop :=
  websocketThenPolling o /\ reconnectionEnabled o /\ boundedAttempts o /\ fixedDelay o.

End Socket.

(** ** fetch: requests, responses, promises *)

Module Http.

(** A parsed JSON document, an object's members in the order of the text. *)
Inductive Json : Type :=
  | JsonNull
  | JsonBool (b : bool)
  | JsonNum (q : Q)
  | JsonStr (s : jsstring)
  | JsonArr (items : list Json)
  | JsonObj (members : list (jsstring * Json)).

(** A thrown value: [new Error(message)] and the built-in errors. *)
Inductive ErrorName : Type := PlainError | TypeError | SyntaxError.
Record Error : Type := mkError { name : ErrorName; message : jsstring }.

(** A settled promise. *)
Inductive Promise (A : Type) : Type :=
  | Resolved (a : A)
  | Thrown (e : Error).
Arguments Resolved {A} a.
Arguments Thrown {A} e.

#[global] Instance Promise_bind : MBind Promise := fun A B k p =>
  match p with
  | Resolved a => k a
  | Thrown e => Thrown e
  end.

(** The body a request carries: the completion call's [requestBody],
    before [JSON.stringify]. *)
Record Completion : Type := mkCompletion {
  model : jsstring;
  messages : list (gmap string JsVal);
  max_tokens : N;
  temperature : Q
}.

Record Request : Type := mkRequest {
  method : string;
  target : jsstring;
  headers : list (string * jsstring);
  body : option Completion
}.

(** A response whose body has been received: [text] is [await res.text()]
    and [json] is [await res.json()], [None] when the text is not JSON. *)
Record Response : Type := mkResponse {
  status : N;
  text : jsstring;
  json : option Json
}.

(** [res.ok]: the status is in the range 200-299. *)
Definition ok (r : Response) : bool := (200 <=? status r) && (status r <=? 299).

(** What [await fetch(...)] gives: a response of any status, or a rejection
    when no response arrives. *)
Inductive Outcome : Type :=
  | Fulfilled (r : Response)
  | Rejected (e : Error).

Definition await (o : Outcome) : Promise Response :=
  match o with
  | Fulfilled r => Resolved r
  | Rejected e => Thrown e
  end.

(** [await res.json()] *)
Definition parsed (r : Response) : Promise Json :=
  match json r with
  | Some j => Resolved j
  | None => Thrown (mkError SyntaxError (lit "Unexpected token in JSON"))
  end.

(** A property key: a name or an array index. *)
Inductive Key : Type := Named (k : string) | Index (i : nat).

(** The last member of that name ([JSON.parse] keeps the last duplicate). *)
Fixpoint lastMember (k : jsstring) (ms : list (jsstring * Json)) : option Json :=
  match ms with
  | [] => None
  | (k', v) :: rest =>
      match lastMember k rest with
      | Some w => Some w
      | None => if decide (k' = k) then Some v else None
      end
  end.

(** [v[k]] on a parsed value; [None] is [undefined].  Reading a property of
    [undefined] or [null] throws.  (The chain below never asks for
    [length].) *)
Definition member (k : Key) (v : option Json) : Promise (option Json) :=
  match v with
  | None | Some JsonNull =>
      Thrown (mkError TypeError (lit "Cannot read properties of undefined"))
  | Some (JsonObj ms) =>
      Resolved (lastMember (match k with
                            | Named n => lit n
                            | Index i => decimal (N.of_nat i)
                            end) ms)
  | Some (JsonArr items) =>
      Resolved (match k with Index i => items !! i | Named _ => None end)
  | Some (JsonStr s) =>
      Resolved (match k with
                | Index i => (fun c => JsonStr [c]) <$> (s !! i)
                | Named _ => None
                end)
  | Some (JsonBool _) | Some (JsonNum _) => Resolved None
  end.

(** [v.trim()] *)
Definition callTrim (v : option Json) : Promise jsstring :=
  match v with
  | Some (JsonStr s) => Resolved (trim s)
  | None | Some JsonNull =>
      Thrown (mkError TypeError (lit "Cannot read properties of undefined"))
  | Some _ => Thrown (mkError TypeError (lit "trim is not a function"))
  end.

(** String conversion inside a template literal. *)
Definition toString (v : JsVal) : jsstring :=
  match v with
  | JUndefined => lit "undefined"
  | JNull => lit "null"
  | JBool true => lit "true"
  | JBool false => lit "false"
  | JStr s => s
  end.

End Http.
Import Http.

(** ** chatApi.js *)

Module ChatApi.

Definition get (target : jsstring) : Request := mkRequest "GET" target [] None.

(** [getChats]; [net] is what the network answers to a request. *)
Definition getChats (net : Request -> Outcome) : Promise Json :=
  res ← await (net (get (lit "http://localhost:4000/api/chats")));
  parsed res.

(** [getChatMessages(sessionId)] *)
Definition getChatMessages (net : Request -> Outcome) (sessionId : JsVal)
    : Promise Json :=
  res ← await (net (get (lit "http://localhost:4000/api/chats/" ++ toString sessionId)));
  parsed res.

End ChatApi.

(** ** chatgpt.jsx: ChatGPTService *)

Module ChatGPT.

Definition apiUrl : jsstring := lit "https://api.openai.com/v1/chat/completions".

(** The value the environment template ships for [VITE_OPENAI_API_KEY]. *)
Definition placeholder : jsstring := lit "your_openai_api_key_here".

(** The page the service lives in: the state of both views and the
    requests sent so far. *)
Record Page : Type := mkPage {
  widget : ChatWindow.State;
  dashboard : AdminDashboard.State;
  requests : list Request
}.

Definition systemMessage : gmap string JsVal :=
  {[ "role" := JStr (lit "system");
     "content" := JStr (lit "You are a helpful assistant. Provide concise, helpful responses to user questions.") ]}.

Definition userEntry (userMessage : JsVal) : gmap string JsVal :=
  {[ "role" := JStr (lit "user"); "content" := userMessage ]}.

(** The array literal [[system, ...conversationHistory.slice(-5), user]]. *)
Definition buildMessages (userMessage : JsVal)
    (conversationHistory : list (gmap string JsVal)) : list (gmap string JsVal) :=
  [systemMessage] ++ sliceLast 5 conversationHistory ++ [userEntry userMessage].

Definition completionRequest (key : jsstring) (userMessage : JsVal)
    (conversationHistory : list (gmap string JsVal)) : Request :=
  mkRequest "POST" apiUrl
            [("Content-Type", lit "application/json");
             ("Authorization", lit "Bearer " ++ key)]
            (Some (mkCompletion (lit "gpt-3.5-turbo")
                                (buildMessages userMessage conversationHistory)
                                500 (7 # 10))).

Definition notConfigured : Error :=
  mkError PlainError (lit "OpenAI API key is not configured").

Definition apiError (status : N) : Error :=
  mkError PlainError (lit "OpenAI API error: " ++ decimal status).

(** [data.choices[0].message.content.trim()] *)
Definition firstChoice (data : Json) : Promise jsstring :=
  choices ← member (Named "choices") (Some data);
  choice ← member (Index 0) choices;
  message ← member (Named "message") choice;
  content ← member (Named "content") message;
  callTrim content.

(** [generateResponse(userMessage, conversationHistory)] of a service whose
    [apiKey] is [apiKey].  The [catch] block logs and rethrows, so a thrown
    error is the call's result as it is.  A truthy key that is not a string
    has no [substring] and the call throws before any request. *)
Definition generateResponse (apiKey : JsVal) (net : Request -> Outcome)
    (userMessage : JsVal) (conversationHistory : list (gmap string JsVal))
    (pg : Page) : Promise jsstring * Page :=
  if negb (truthy apiKey) || strictEq apiKey (JStr placeholder) then
    (Thrown notConfigured, pg)
  else
    match apiKey with
    | JStr key =>
        let request := completionRequest key userMessage conversationHistory in
        (response ← await (net request);
         if negb (ok response) then Thrown (apiError (status response))
         else data ← parsed response; firstChoice data,
         mkPage (widget pg) (dashboard pg) (requests pg ++ [request]))
    | _ =>
        (Thrown (mkError TypeError (lit "this.apiKey.substring is not a function")), pg)
    end.

(** A page with both views fresh and nothing sent. *)
Definition freshPage : Page :=
  mkPage (ChatWindow.mount ∅) (AdminDashboard.mkState [] None [] [] []) [].

(** A network that answers every request with [r]. *)
Definition answering (r : Response) : Request -> Outcome := fun _ => Fulfilled r.

(** The JSON text of an object with the one member [error], a string
    (34 is the double quote). *)
Definition errorText (reason : string) : jsstring :=
  lit "{" ++ [34] ++ lit "error" ++ [34] ++ lit ":" ++ [34] ++ lit reason ++ [34] ++ lit "}".

Definition errorJson (reason : string) : Json :=
  JsonObj [(lit "error", JsonStr (lit reason))].

(** A rate-limit answer and a server-error answer, each with a JSON body. *)
Definition tooManyRequests : Response :=
  mkResponse 429 (errorText "rate limit") (Some (errorJson "rate limit")).

Definition serverError : Response :=
  mkResponse 500 (errorText "Internal Server Error")
             (Some (errorJson "Internal Server Error")).

(** Seven turns of history, numbered. *)
Definition turn (role content : string) : gmap string JsVal :=
  {[ "role" := JStr (lit role); "content" := JStr (lit content) ]}.

Definition sevenTurns : list (gmap string JsVal) :=
  [ turn "user" "1"; turn "assistant" "2"; turn "user" "3"; turn "assistant" "4";
    turn "user" "5"; turn "assistant" "6"; turn "user" "7" ].

End ChatGPT.

(** ** admin/components/MessageBubble.jsx *)

Module MessageBubble.

(** What a component renders: elements with a class and children, and text. *)
Inductive VNode : Type :=
  | Element (tag : string) (className : string) (children : list VNode)
  | Text (s : jsstring).

(** A JSX child [{v}]: a string is text; [undefined], [null] and booleans
    render nothing. *)
Definition child (v : JsVal) : list VNode :=
  match v with
  | JStr s => [Text s]
  | _ => []
  end.

Definition MessageBubble (message : gmap string JsVal) (isAdmin : bool) : VNode :=
  Element "div"
    ("flex mb-4 " +:+ (if isAdmin then "justify-end" else "justify-start"))
    [ Element "div"
        ("flex items-start space-x-2 max-w-xs lg:max-w-md " +:+
           (if isAdmin then "flex-row-reverse space-x-reverse" else ""))
        [ Element "div"
            ("w-8 h-8 rounded-full flex items-center justify-center text-xs font-semibold " +:+
               (if isAdmin then "bg-blue-600 text-white" else "bg-gray-600 text-gray-200"))
            [ Text (lit (if isAdmin then "A" else "U")) ];
          Element "div"
            ("px-4 py-2 rounded-lg shadow-sm " +:+
               (if isAdmin then "bg-blue-600 text-white rounded-br-none"
                else "bg-gray-700 text-gray-100 rounded-bl-none"))
            [ Element "p" "text-sm leading-relaxed break-words"
                (child (get "text" message));
              Element "p"
                ("text-xs mt-1 " +:+ (if isAdmin then "text-blue-100" else "text-gray-400"))
                (child (get "timestamp" message)) ] ] ].

(** The text a node shows. *)
Fixpoint textContent (v : VNode) : jsstring :=
  match v with
  | Text s => s
  | Element _ _ children => flat_map textContent children
  end.

(** The node reached by taking the [i]-th child at each step of [path]. *)
Fixpoint descend (path : list nat) (v : VNode) : option VNode :=
  match path with
  | [] => Some v
  | i :: rest =>
      match v with
      | Element _ _ children => children !! i ≫= descend rest
      | Text _ => None
      end
  end.

(** The bubble's two paragraphs: the body and the timestamp. *)
Definition renderedBody (message : gmap string JsVal) (isAdmin : bool) : option jsstring :=
  textContent <$> descend [0; 1; 0]%nat (MessageBubble message isAdmin).

Definition renderedTimestamp (message : gmap string JsVal) (isAdmin : bool) : option jsstring :=
  textContent <$> descend [0; 1; 1]%nat (MessageBubble message isAdmin).

(** The text of a JSX child. *)
Definition shownText (v : JsVal) : jsstring :=
  match v with
  | JStr s => s
  | _ => []
  end.

End MessageBubble.

(** ** One conversation of the user widget, as a run of events *)

Module Conversation.
Import ChatWindow.

(** What happens to the widget: the local actor submits [content] at time
    [now], or the socket delivers a pushed [message]. *)
Inductive Event : Type :=
  | Local (content now : jsstring)
  | Pushed (m : gmap string JsVal).

Definition step (st : State) (e : Event) : State :=
  match e with
  | Local content now => appendLocal content now st
  | Pushed m => mergeIncoming m st
  end.

Definition run (tr : list Event) (st : State) : State := foldl step st tr.

(** The entry a submission makes visible and the event it transmits. *)
Definition localMessage (content now : jsstring) : gmap string JsVal :=
  {[ "sender" := JStr ownRole; "content" := JStr (trim content); "createdAt" := JStr now ]}.

Definition transmission (sessionId : JsVal) (content : jsstring) : Effect :=
  Emit "user_message"
       (Some {[ "sessionId" := sessionId; "content" := JStr (trim content) ]}) false.

(** The locally-originated entries of a run, in call order. *)
Definition localMessages (tr : list Event) : list (gmap string JsVal) :=
  flat_map (fun e => match e with
                     | Local content now =>
                         if blank content then [] else [localMessage content now]
                     | Pushed _ => []
                     end) tr.

(** The pushed messages of a run, in delivery order. *)
Definition pushes (tr : list Event) : list (gmap string JsVal) :=
  flat_map (fun e => match e with Pushed m => [m] | Local _ _ => [] end) tr.

Definition fromPeer (m : gmap string JsVal) : bool :=
  strictEq (get "sender" m) (JStr peerRole).
Definition fromSelf (m : gmap string JsVal) : bool :=
  strictEq (get "sender" m) (JStr ownRole).

(** What one event adds to the visible sequence. *)
Definition shown (e : Event) : list (gmap string JsVal) :=
  match e with
  | Local content now => if blank content then [] else [localMessage content now]
  | Pushed m => if fromPeer m then [m] else []
  end.

(** Modelled from the spec: the backend and its message store are outside
    this repository.  The spec has the backend persist a message and then
    push it (the confirmation of an own message, or the peer's message) on
    the conversation's channel, which delivers in order; so the part of the
    authoritative sequence the client has been told of is the pushed
    messages in delivery order. *)
Definition serverSequence (tr : list Event) : list (gmap string JsVal) := pushes tr.

(** Modelled from the spec: a pushed message of the client's own role is
    the confirmation of its earliest unconfirmed send, so the sends not yet
    confirmed are the local entries past the number of such pushes. *)
Definition unconfirmed (tr : list Event) : list (gmap string JsVal) :=
  drop (length (List.filter fromSelf (serverSequence tr))) (localMessages tr).

(** The invariant of the data model, for the state reached by [tr] from a
    fresh widget: the rendered sequence has no duplicate, holds exactly the
    server's messages and the unconfirmed local ones, and shows the
    server's messages in the server's order. *)
Definition reconciled (tr : list Event) : Prop :=
  let rendered := messages (run tr (mount ∅)) in
  NoDup rendered /\
  (forall m, m ∈ rendered <-> m ∈ serverSequence tr \/ m ∈ unconfirmed tr) /\
  List.filter (fun m => bool_decide (m ∈ serverSequence tr)) rendered = serverSequence tr.

(** The calls of a run that only submits: [(content, now)] per call. *)
Definition submissions (calls : list (jsstring * jsstring)) : list Event :=
  map (fun call => Local call.1 call.2) calls.

(** The user's "Hello", the operator's "Hi there", and a run in which the
    operator's message reached the server before the user's did. *)
Definition hello : gmap string JsVal :=
  localMessage (lit "Hello") (lit "2024-12-14T10:00:00.000Z").

Definition hiThere : gmap string JsVal :=
  {[ "sender" := JStr (lit "admin"); "content" := JStr (lit "Hi there");
     "createdAt" := JStr (lit "2024-12-14T10:00:00.100Z") ]}.

Definition crossing : list Event :=
  [ Local (lit "Hello") (lit "2024-12-14T10:00:00.000Z");
    Pushed hiThere;
    Pushed hello ].

(** The same pushes, the operator's message delivered before the user
    submits. *)
Definition uncrossed : list Event :=
  [ Pushed hiThere;
    Local (lit "Hello") (lit "2024-12-14T10:00:00.000Z");
    Pushed hello ].

(** Three submissions, the second of them blank. *)
Definition threeCalls : list (jsstring * jsstring) :=
  [ (lit "Hello", lit "2024-12-14T10:00:00.000Z");
    (lit "   ", lit "2024-12-14T10:00:01.000Z");
    (lit " Hi again ", lit "2024-12-14T10:00:02.000Z") ].

End Conversation.

(** ** The operator's replies, as a run of calls *)

Module Replies.
Import AdminDashboard.

Definition run (calls : list (jsstring * jsstring)) (st : State) : State :=
  foldl (fun st call => appendLocal call.1 call.2 st) st calls.

Definition replyMessage (content now : jsstring) : gmap string JsVal :=
  {[ "sender" := JStr ownRole; "content" := JStr (trim content); "createdAt" := JStr now ]}.

Definition transmission (sel : gmap string JsVal) (content : jsstring) : Effect :=
  Emit "admin_message"
       (Some {[ "sessionId" := get "sessionId" sel; "content" := JStr (trim content) ]}) false.

(** Two roster entries, and a dashboard on which the first is selected. *)
Definition sessionA : gmap string JsVal :=
  {[ "sessionId" := JStr (lit "session_1703426439123_k7m8n9p2q");
     "lastMessage" := JStr (lit "Hello") ]}.

Definition sessionB : gmap string JsVal :=
  {[ "sessionId" := JStr (lit "session_1703426440000_a1b2c3d4e");
     "lastMessage" := JStr (lit "Anyone there?") ]}.

(** Session A again, as a later snapshot lists it. *)
Definition sessionA' : gmap string JsVal :=
  {[ "sessionId" := JStr (lit "session_1703426439123_k7m8n9p2q");
     "lastMessage" := JStr (lit "Thanks!") ]}.

Definition onSessionA : State := mkState [sessionA; sessionB] (Some sessionA) [] [] [].

End Replies.


(** ** Mixed runs of the widget: what is transmitted *)

Module Transmissions.
Import ChatWindow Conversation.

(** What one event transmits when the current session identifier is
    [sessionId]: a non-blank submission its [user_message], anything else
    nothing. *)
Definition emitted (sessionId : JsVal) (e : Event) : list Effect :=
  match e with
  | Local content _ => if blank content then [] else [transmission sessionId content]
  | Pushed _ => []
  end.

(** The code units of the decimal digits. *)
Definition isDigit (c : N) : bool := (48 <=? c) && (c <=? 57).

End Transmissions.

(** ** The operator's dashboard, as a run of events *)

Module Dashboard.
Import AdminDashboard.

(** A [sessions-list] push, or the operator submitting a reply. *)
Inductive Event : Type :=
  | Roster (sessionsList : list (gmap string JsVal))
  | Reply (content now : jsstring).

Definition step (st : State) (e : Event) : State :=
  match e with
  | Roster sessionsList => handleSessionsList sessionsList st
  | Reply content now => appendLocal content now st
  end.

Definition run (tr : list Event) (st : State) : State := foldl step st tr.



End Dashboard.

(** ** Answers of the completion service *)

Module Answers.

(** The body of a completion: one choice whose message has [content]. *)
Definition messageOf (content : jsstring) : list (jsstring * Json) :=
  [ (lit "role", JsonStr (lit "assistant")); (lit "content", JsonStr content) ].

Definition choiceOf (content : jsstring) : list (jsstring * Json) :=
  [ (lit "index", JsonNum 0); (lit "message", JsonObj (messageOf content)) ].

Definition membersOf (content : jsstring) : list (jsstring * Json) :=
  [ (lit "id", JsonStr (lit "chatcmpl-1"));
    (lit "choices", JsonArr [ JsonObj (choiceOf content) ]) ].

Definition completion (content : jsstring) : Json := JsonObj (membersOf content).

(** A body with an empty list of choices, and one with none at all. *)
Definition noChoices : Json := JsonObj [ (lit "choices", JsonArr []) ].
Definition noChoicesMember : Json := JsonObj [ (lit "id", JsonStr (lit "chatcmpl-1")) ].

(** A 200 answer with the given parsed body. *)
Definition success (body : Json) : Response := mkResponse 200 [] (Some body).

End Answers.

(** ** ChatWindow.jsx: how an entry is rendered *)

Module ChatWindowView.
Import MessageBubble.

(** The body of [messages.map((msg, index) => ...)] for one entry;
    [formatTimestamp] is the component's helper, which goes through the
    browser's locale and is taken as given. *)
Definition renderMessage (formatTimestamp : JsVal -> jsstring)
    (msg : gmap string JsVal) : VNode :=
  Element "div"
    ("mb-4 " +:+
       (if strictEq (get "sender" msg) (JStr (lit "user"))
        then "text-right" else "text-left"))
    [ Element "div"
        ("inline-block p-3 rounded-lg max-w-[80%] " +:+
           (if strictEq (get "sender" msg) (JStr (lit "user"))
            then "bg-blue-600 text-white" else "bg-gray-200 text-gray-800"))
        (child (get "content" msg) ++
         [ Element "div" "text-xs mt-1 opacity-70"
             [ Text (formatTimestamp (get "createdAt" msg)) ] ]) ].

(** The class of the outer element. *)
Definition className (v : VNode) : string :=
  match v with
  | Element _ c _ => c
  | Text _ => ""
  end.

End ChatWindowView.

(** ** The earlier subscriber of [message] *)

Module Earlier.

(** [socket.on("message", (message) => setMessages(prev => [...prev, message]))],
    the listing under "User Chat Socket Events". *)
Definition handleMessage (message : gmap string JsVal) (st : ChatWindow.State)
    : ChatWindow.State :=
  ChatWindow.mkState (ChatWindow.messages st ++ [message]) (ChatWindow.messageText st)
                     (ChatWindow.currentSessionId st) (ChatWindow.localStorage st)
                     (ChatWindow.effects st).

End Earlier.

(** * Properties *)

(** ** Strings and objects *)

Section Values.

Lemma truthy_JStr (s : jsstring) : truthy (JStr s) = true <-> s <> [].
Proof. destruct s; simpl; split; congruence. Qed.

Lemma strictEq_true (a b : JsVal) : strictEq a b = true <-> a = b.
Proof. unfold strictEq. apply bool_decide_eq_true. Qed.

Lemma strictEq_false (a b : JsVal) : strictEq a b = false <-> a <> b.
Proof. unfold strictEq. apply bool_decide_eq_false. Qed.

Lemma get_insert_eq (k : string) (v : JsVal) (ob : gmap string JsVal) :
  get k (<[k := v]> ob) = v.
Proof. unfold get. by rewrite lookup_insert_eq. Qed.

Lemma get_absent (k : string) (ob : gmap string JsVal) :
  ob !! k = None -> get k ob = JUndefined.
Proof. unfold get. by intros ->. Qed.

Lemma user_is_not_admin : JStr ChatWindow.ownRole <> JStr ChatWindow.peerRole.
Proof. vm_compute. discriminate. Qed.

Lemma length_sliceLast {A} (n : nat) (a : list A) :
  length (sliceLast n a) = Nat.min n (length a).
Proof. unfold sliceLast. rewrite length_drop. lia. Qed.

Lemma sliceLast_suffix {A} (n : nat) (a : list A) :
  a = take (length a - n) a ++ sliceLast n a.
Proof. unfold sliceLast. by rewrite take_drop. Qed.

End Values.

(** ** The user widget, call by call *)

Section Widget.
Import ChatWindow Conversation.

Lemma appendLocal_messages content now st :
  messages (appendLocal content now st) = messages st ++ shown (Local content now).
Proof.
  unfold appendLocal, sendMessage, shown, blank, localMessage. simpl.
  destruct (trim content); simpl; [|done]. by rewrite app_nil_r.
Qed.

Lemma appendLocal_effects content now st :
  effects (appendLocal content now st) =
  effects st ++ (if blank content then [] else [transmission (currentSessionId st) content]).
Proof.
  unfold appendLocal, sendMessage, blank, transmission. simpl.
  destruct (trim content); simpl; [|done]. by rewrite app_nil_r.
Qed.

Lemma appendLocal_sessionId content now st :
  currentSessionId (appendLocal content now st) = currentSessionId st.
Proof.
  unfold appendLocal, sendMessage. simpl.
  by destruct (trim content).
Qed.

Lemma mergeIncoming_messages m st :
  messages (mergeIncoming m st) = messages st ++ shown (Pushed m).
Proof.
  unfold mergeIncoming, handleMessage, shown, fromPeer.
  destruct (strictEq (get "sender" m) (JStr peerRole)); simpl; [done|].
  by rewrite app_nil_r.
Qed.

Lemma step_messages st e : messages (step st e) = messages st ++ shown e.
Proof. destruct e; [apply appendLocal_messages | apply mergeIncoming_messages]. Qed.

Lemma run_messages tr : forall st,
  messages (run tr st) = messages st ++ flat_map shown tr.
Proof.
  induction tr as [|e tr IH]; intros st; simpl.
  - by rewrite app_nil_r.
  - unfold run in *. simpl. rewrite IH, step_messages. by rewrite <- app_assoc.
Qed.

Lemma fromSelf_localMessage content now : fromSelf (localMessage content now) = true.
Proof.
  unfold fromSelf, localMessage. apply strictEq_true. apply get_insert_eq.
Qed.

Lemma fromPeer_localMessage content now : fromPeer (localMessage content now) = false.
Proof.
  unfold fromPeer, localMessage. apply strictEq_false.
  rewrite get_insert_eq. apply user_is_not_admin.
Qed.

Lemma fromPeer_not_fromSelf m : fromPeer m = true -> fromSelf m = false.
Proof.
  unfold fromPeer, fromSelf. rewrite strictEq_true, strictEq_false.
  intros ->. intros H. by apply user_is_not_admin.
Qed.

Lemma shown_fromSelf tr :
  List.filter fromSelf (flat_map shown tr) = localMessages tr.
Proof.
  induction tr as [|[content now|m] tr IH]; simpl; [done| |].
  - rewrite List.filter_app, IH. f_equal.
    destruct (blank content); simpl; [done|]. by rewrite fromSelf_localMessage.
  - rewrite List.filter_app, IH.
    destruct (fromPeer m) eqn:Hm; simpl; [|done].
    by rewrite (fromPeer_not_fromSelf m Hm).
Qed.

Lemma shown_fromPeer tr :
  List.filter fromPeer (flat_map shown tr) = List.filter fromPeer (pushes tr).
Proof.
  induction tr as [|[content now|m] tr IH]; simpl; [done| |].
  - rewrite List.filter_app, IH.
    destruct (blank content); simpl; [done|]. by rewrite fromPeer_localMessage.
  - rewrite List.filter_app, IH.
    destruct (fromPeer m) eqn:Hm; simpl; by rewrite ?Hm.
Qed.

Lemma length_shown tr :
  length (flat_map shown tr) =
  (length (localMessages tr) + length (List.filter fromPeer (pushes tr)))%nat.
Proof.
  induction tr as [|[content now|m] tr IH]; simpl; [done| |].
  - rewrite !length_app, IH. destruct (blank content); simpl; lia.
  - rewrite length_app, IH. destruct (fromPeer m); simpl; lia.
Qed.

End Widget.

Section MergeIncoming.
Import ChatWindow.

(** C1. A pushed message whose sender is this client's own role leaves the
    visible sequence as it was; one whose sender is the other party is
    appended at the tail, the earlier entries keeping their positions. *)
Theorem C1_mergeIncoming_echo_or_append :
  forall (st : State) (m : gmap string JsVal),
    (get "sender" m = JStr ownRole ->
       messages (mergeIncoming m st) = messages st /\
       length (messages (mergeIncoming m st)) = length (messages st)) /\
    (get "sender" m = JStr peerRole ->
       messages (mergeIncoming m st) = messages st ++ [m] /\
       (forall i x, messages st !! i = Some x ->
                    messages (mergeIncoming m st) !! i = Some x)).
Proof.
  intros st m. unfold mergeIncoming, handleMessage. split.
  - intros Hown. rewrite Hown.
    destruct (strictEq (JStr ownRole) (JStr peerRole)) eqn:E; [|done].
    apply strictEq_true in E. by apply user_is_not_admin in E.
  - intros Hpeer. rewrite Hpeer.
    destruct (strictEq (JStr peerRole) (JStr peerRole)) eqn:E.
    + simpl. split; [done|]. intros i x Hi. by apply lookup_app_l_Some.
    + by apply strictEq_false in E.
Qed.

(** The end-to-end scenario of the spec: after "Hello" is visible, the
    server's echo changes nothing and the operator's "Hi there" is second. *)
Lemma C1_witness :
  let hello : gmap string JsVal :=
    {[ "sender" := JStr (lit "user"); "content" := JStr (lit "Hello");
       "createdAt" := JStr (lit "2024-12-14T10:00:00.000Z") ]} in
  let hi : gmap string JsVal :=
    {[ "sender" := JStr (lit "admin"); "content" := JStr (lit "Hi there");
       "createdAt" := JStr (lit "2024-12-14T10:00:05.000Z") ]} in
  let st := mkState [hello] [] JNull ∅ [] in
  messages (mergeIncoming hello st) = [hello] /\
  messages (mergeIncoming hi st) = [hello; hi].
Proof.
  intros hello hi st. split.
  - apply (proj1 (C1_mergeIncoming_echo_or_append st hello)). reflexivity.
  - apply (proj2 (C1_mergeIncoming_echo_or_append st hi)). reflexivity.
Defined.

End MergeIncoming.

Section Reconciliation.
Import ChatWindow Conversation.

Lemma hello_is_not_hiThere : hello <> hiThere.
Proof.
  intros H. apply (f_equal (get "sender")) in H.
  unfold hello, hiThere, localMessage in H. rewrite !get_insert_eq in H.
  by apply user_is_not_admin in H.
Qed.

(** C2, refuted as stated.  In the run [crossing] every message is
    confirmed; the server's order is operator then user, the rendered order
    is user then operator.  The run [uncrossed] has the same pushes and
    renders the other order, so the rendered order is not a function of the
    server's. *)
Lemma C2_counterexample :
  messages (run crossing (mount ∅)) = [hello; hiThere] /\
  serverSequence crossing = [hiThere; hello] /\
  unconfirmed crossing = [] /\
  serverSequence uncrossed = serverSequence crossing /\
  messages (run uncrossed (mount ∅)) = [hiThere; hello] /\
  ~ reconciled crossing.
Proof.
  assert (Hrun : messages (run crossing (mount ∅)) = [hello; hiThere]).
  { rewrite run_messages. reflexivity. }
  assert (Hrun' : messages (run uncrossed (mount ∅)) = [hiThere; hello]).
  { rewrite run_messages. reflexivity. }
  repeat split; try done.
  intros (_ & _ & Horder). rewrite Hrun in Horder.
  change (serverSequence crossing) with [hiThere; hello] in Horder.
  simpl in Horder.
  rewrite !bool_decide_eq_true_2 in Horder by set_solver.
  injection Horder as Horder _. by apply hello_is_not_hiThere.
Qed.

(** C2, as the code has it.  From a fresh widget, after any run of local
    submissions and deliveries, the rendered sequence holds what each event
    made visible, in the order the events reached the client: every
    non-blank local submission once, every pushed message of the peer's
    role once, and no pushed message of the client's own role.  So its
    own-role entries are the local submissions in call order and its
    peer-role entries are the server's peer messages in the server's
    order. *)
Theorem C2_rendered_in_arrival_order :
  forall (storage : gmap string jsstring) (tr : list Event),
    messages (run tr (mount storage)) = flat_map shown tr /\
    List.filter fromSelf (messages (run tr (mount storage))) = localMessages tr /\
    List.filter fromPeer (messages (run tr (mount storage))) =
      List.filter fromPeer (serverSequence tr) /\
    length (messages (run tr (mount storage))) =
      (length (localMessages tr) + length (List.filter fromPeer (serverSequence tr)))%nat.
Proof.
  intros storage tr. rewrite run_messages. simpl.
  split; [done|]. split; [apply shown_fromSelf|].
  split; [apply shown_fromPeer|apply length_shown].
Qed.

End Reconciliation.

(** ** Runs of local submissions *)

Section LocalRuns.

Lemma widget_submissions calls : forall st : ChatWindow.State,
  ChatWindow.messages (Conversation.run (Conversation.submissions calls) st) =
    ChatWindow.messages st ++
    map (fun call => Conversation.localMessage call.1 call.2) (sent calls) /\
  ChatWindow.effects (Conversation.run (Conversation.submissions calls) st) =
    ChatWindow.effects st ++
    map (fun call => Conversation.transmission (ChatWindow.currentSessionId st) call.1)
        (sent calls).
Proof.
  induction calls as [|[content now] calls IH]; intros st.
  - simpl. by rewrite !app_nil_r.
  - unfold Conversation.run in *. simpl.
    destruct (IH (ChatWindow.appendLocal content now st)) as [IHm IHe].
    rewrite IHm, IHe, appendLocal_messages, appendLocal_effects, appendLocal_sessionId.
    simpl. destruct (blank content); simpl; rewrite <- !app_assoc; done.
Qed.

Lemma sendReply_unselected now (st : AdminDashboard.State) :
  AdminDashboard.selectedSession st = None -> AdminDashboard.sendReply now st = st.
Proof.
  intros H. unfold AdminDashboard.sendReply. rewrite H.
  by destruct (truthy (JStr (trim (AdminDashboard.replyText st)))).
Qed.

Lemma dashboard_unselected calls : forall st : AdminDashboard.State,
  AdminDashboard.selectedSession st = None ->
  AdminDashboard.sessionMessages (Replies.run calls st) = AdminDashboard.sessionMessages st /\
  AdminDashboard.effects (Replies.run calls st) = AdminDashboard.effects st.
Proof.
  induction calls as [|[content now] calls IH]; intros st Hsel; [done|].
  unfold Replies.run in *. simpl.
  replace (AdminDashboard.appendLocal content now st)
    with (AdminDashboard.setReplyText content st)
    by (symmetry; by apply sendReply_unselected).
  exact (IH (AdminDashboard.setReplyText content st) Hsel).
Qed.

Lemma reply_selected content now (st : AdminDashboard.State) sel :
  AdminDashboard.selectedSession st = Some sel ->
  AdminDashboard.selectedSession (AdminDashboard.appendLocal content now st) = Some sel /\
  AdminDashboard.sessionMessages (AdminDashboard.appendLocal content now st) =
    AdminDashboard.sessionMessages st ++
    (if blank content then [] else [Replies.replyMessage content now]) /\
  AdminDashboard.effects (AdminDashboard.appendLocal content now st) =
    AdminDashboard.effects st ++
    (if blank content then [] else [Replies.transmission sel content]).
Proof.
  intros Hsel.
  unfold AdminDashboard.appendLocal, AdminDashboard.sendReply, blank,
    Replies.replyMessage, Replies.transmission.
  simpl. rewrite Hsel.
  destruct (trim content); simpl; rewrite ?app_nil_r; done.
Qed.

Lemma dashboard_selected calls : forall (st : AdminDashboard.State) sel,
  AdminDashboard.selectedSession st = Some sel ->
  AdminDashboard.sessionMessages (Replies.run calls st) =
    AdminDashboard.sessionMessages st ++
    map (fun call => Replies.replyMessage call.1 call.2) (sent calls) /\
  AdminDashboard.effects (Replies.run calls st) =
    AdminDashboard.effects st ++
    map (fun call => Replies.transmission sel call.1) (sent calls).
Proof.
  induction calls as [|[content now] calls IH]; intros st sel Hsel.
  - simpl. by rewrite !app_nil_r.
  - destruct (reply_selected content now st sel Hsel) as (Hsel' & Hm & He).
    unfold Replies.run in *. simpl.
    destruct (IH _ sel Hsel') as [IHm IHe].
    rewrite IHm, IHe, Hm, He.
    destruct (blank content); simpl; rewrite <- !app_assoc; done.
Qed.

(** C3, refuted as stated.  The operator's dashboard starts with no
    conversation selected, and there a non-blank reply is not appended. *)
Lemma C3_counterexample :
  length (sent [(lit "Hello", lit "2024-12-14T10:00:00.000Z")]) = 1%nat /\
  AdminDashboard.sessionMessages
    (Replies.run [(lit "Hello", lit "2024-12-14T10:00:00.000Z")]
                 (AdminDashboard.mkState [] None [] [] [])) = [].
Proof. split; reflexivity. Qed.

(** C3, as the code has it.  Starting from an empty sequence, a run of
    submissions in the user widget shows one entry per call whose content
    is not blank after trimming, in call order, and transmits one
    [user_message] per such call and nothing for a blank one.  The same
    holds for the operator's replies while a conversation is selected;
    while none is selected no reply is appended or transmitted. *)
Theorem C3_local_runs :
  (forall calls (st : ChatWindow.State),
     ChatWindow.messages st = [] ->
     ChatWindow.messages (Conversation.run (Conversation.submissions calls) st) =
       map (fun call => Conversation.localMessage call.1 call.2) (sent calls) /\
     length (ChatWindow.messages (Conversation.run (Conversation.submissions calls) st)) =
       length (sent calls) /\
     ChatWindow.effects (Conversation.run (Conversation.submissions calls) st) =
       ChatWindow.effects st ++
       map (fun call => Conversation.transmission (ChatWindow.currentSessionId st) call.1)
           (sent calls)) /\
  (forall calls (st : AdminDashboard.State) sel,
     AdminDashboard.sessionMessages st = [] ->
     AdminDashboard.selectedSession st = Some sel ->
     AdminDashboard.sessionMessages (Replies.run calls st) =
       map (fun call => Replies.replyMessage call.1 call.2) (sent calls) /\
     length (AdminDashboard.sessionMessages (Replies.run calls st)) = length (sent calls) /\
     AdminDashboard.effects (Replies.run calls st) =
       AdminDashboard.effects st ++
       map (fun call => Replies.transmission sel call.1) (sent calls)) /\
  (forall calls (st : AdminDashboard.State),
     AdminDashboard.selectedSession st = None ->
     AdminDashboard.sessionMessages (Replies.run calls st) =
       AdminDashboard.sessionMessages st /\
     AdminDashboard.effects (Replies.run calls st) = AdminDashboard.effects st).
Proof.
  split; [|split].
  - intros calls st Hempty.
    destruct (widget_submissions calls st) as [Hm He].
    rewrite Hempty in Hm. simpl in Hm. rewrite Hm, He, length_map. done.
  - intros calls st sel Hempty Hsel.
    destruct (dashboard_selected calls st sel Hsel) as [Hm He].
    rewrite Hempty in Hm. simpl in Hm. rewrite Hm, He, length_map. done.
  - intros calls st Hsel. by apply dashboard_unselected.
Qed.

End LocalRuns.

Section LocalRunsExample.

(** Three calls, one of them blank: two entries in the widget, two on a
    dashboard with a selection, none on a dashboard without. *)
Lemma C3_witness :
  length (ChatWindow.messages
            (Conversation.run (Conversation.submissions Conversation.threeCalls)
                              (ChatWindow.mount ∅))) = 2%nat /\
  length (AdminDashboard.sessionMessages
            (Replies.run Conversation.threeCalls Replies.onSessionA)) = 2%nat /\
  AdminDashboard.sessionMessages
    (Replies.run Conversation.threeCalls (AdminDashboard.mkState [] None [] [] [])) = [].
Proof.
  destruct C3_local_runs as (Hwidget & Hselected & Hunselected).
  split; [|split].
  - destruct (Hwidget Conversation.threeCalls (ChatWindow.mount ∅) eq_refl)
      as (_ & Hlen & _).
    exact Hlen.
  - destruct (Hselected Conversation.threeCalls Replies.onSessionA Replies.sessionA
                        eq_refl eq_refl) as (_ & Hlen & _).
    exact Hlen.
  - destruct (Hunselected Conversation.threeCalls
                          (AdminDashboard.mkState [] None [] [] []) eq_refl)
      as (Hm & _).
    exact Hm.
Defined.

End LocalRunsExample.

(** ** The roster *)

Section Roster.
Import AdminDashboard.

Lemma sameSession_true sel s :
  sameSession sel s = true <-> get "sessionId" s = get "sessionId" sel.
Proof. unfold sameSession. apply strictEq_true. Qed.

Lemma find_absent sel (l : list (gmap string JsVal)) :
  (forall s, s ∈ l -> get "sessionId" s <> get "sessionId" sel) ->
  List.find (sameSession sel) l = None.
Proof.
  induction l as [|s l IH]; intros Habs; simpl; [done|].
  destruct (sameSession sel s) eqn:E.
  - apply sameSession_true in E. exfalso. apply (Habs s); [left|done].
  - apply IH. intros s' Hs'. apply Habs. by right.
Qed.

Lemma find_first sel (before after : list (gmap string JsVal)) s :
  get "sessionId" s = get "sessionId" sel ->
  (forall s', s' ∈ before -> get "sessionId" s' <> get "sessionId" sel) ->
  List.find (sameSession sel) (before ++ s :: after) = Some s.
Proof.
  intros Hs. induction before as [|b before IH]; intros Hbefore; simpl.
  - by rewrite (proj2 (sameSession_true sel s) Hs).
  - destruct (sameSession sel b) eqn:E.
    + apply sameSession_true in E. exfalso. apply (Hbefore b); [left|done].
    + apply IH. intros s' Hs'. apply Hbefore. by right.
Qed.

(** C4, refuted as stated.  Session A is selected and the new snapshot
    lists only session B: the selection is still session A afterwards. *)
Lemma C4_counterexample :
  List.find (sameSession Replies.sessionA) [Replies.sessionB] = None /\
  selectedSession (handleSessionsList [Replies.sessionB] Replies.onSessionA)
    = Some Replies.sessionA /\
  selectedSession (handleSessionsList [Replies.sessionB] Replies.onSessionA) <> None.
Proof.
  assert (Hfind : List.find (sameSession Replies.sessionA) [Replies.sessionB] = None).
  { apply find_absent. intros s Hs. apply list_elem_of_singleton in Hs as ->.
    unfold Replies.sessionA, Replies.sessionB. rewrite !get_insert_eq.
    vm_compute. discriminate. }
  split; [done|].
  unfold handleSessionsList.
  change (selectedSession Replies.onSessionA) with (Some Replies.sessionA).
  cbv beta iota. rewrite Hfind. split; [reflexivity|discriminate].
Qed.

(** C4, as the code has it.  While a conversation is selected, a
    [sessions-list] snapshot replaces the roster; if no entry of the
    snapshot carries the selected session identifier the selection is left
    as it was, and otherwise the selection becomes the first entry of the
    snapshot that carries it. *)
Theorem C4_roster_replacement :
  forall (sessionsList : list (gmap string JsVal)) (st : State) sel,
    selectedSession st = Some sel ->
    sessions (handleSessionsList sessionsList st) = sessionsList /\
    ((forall s, s ∈ sessionsList -> get "sessionId" s <> get "sessionId" sel) ->
       selectedSession (handleSessionsList sessionsList st) = Some sel) /\
    (forall before s after,
       sessionsList = before ++ s :: after ->
       get "sessionId" s = get "sessionId" sel ->
       (forall s', s' ∈ before -> get "sessionId" s' <> get "sessionId" sel) ->
       selectedSession (handleSessionsList sessionsList st) = Some s).
Proof.
  intros sessionsList st sel Hsel. unfold handleSessionsList. rewrite Hsel.
  split; [|split].
  - by destruct (List.find (sameSession sel) sessionsList).
  - intros Habs. rewrite (find_absent sel sessionsList Habs). simpl. exact Hsel.
  - intros before s after -> Hs Hbefore.
    by rewrite (find_first sel before after s Hs Hbefore).
Qed.

End Roster.

Section RosterExample.
Import AdminDashboard.

Lemma sessionB_is_not_sessionA :
  get "sessionId" Replies.sessionB <> get "sessionId" Replies.sessionA.
Proof. vm_compute. discriminate. Qed.

(** A snapshot that lists session A again re-binds the selection to the
    new entry; one that lists only session B leaves it. *)
Lemma C4_witness :
  selectedSession
    (handleSessionsList [Replies.sessionB; Replies.sessionA'] Replies.onSessionA)
    = Some Replies.sessionA' /\
  selectedSession (handleSessionsList [Replies.sessionB] Replies.onSessionA)
    = Some Replies.sessionA.
Proof.
  split.
  - destruct (C4_roster_replacement [Replies.sessionB; Replies.sessionA']
                Replies.onSessionA Replies.sessionA eq_refl) as (_ & _ & Hpresent).
    apply (Hpresent [Replies.sessionB] Replies.sessionA' []); [reflexivity|reflexivity|].
    intros s Hs. apply list_elem_of_singleton in Hs. subst s.
    exact sessionB_is_not_sessionA.
  - destruct (C4_roster_replacement [Replies.sessionB]
                Replies.onSessionA Replies.sessionA eq_refl) as (_ & Habsent & _).
    apply Habsent.
    intros s Hs. apply list_elem_of_singleton in Hs. subst s.
    exact sessionB_is_not_sessionA.
Defined.

End RosterExample.

(** ** The session identifier *)

Section SessionIdentity.
Import ChatWindow.

Lemma synthesize_nonempty nowMs rnd36 : synthesize nowMs rnd36 <> [].
Proof. unfold synthesize. discriminate. Qed.

Lemma initSession_reuses nowMs rnd36 st id :
  localStorage st !! sessionKey = Some id -> id <> [] ->
  initSession nowMs rnd36 st =
    mkState (messages st) (messageText st) (JStr id) (localStorage st)
            (effects st ++ [Emit "init_session" (Some {[ "sessionId" := JStr id ]}) true]).
Proof.
  intros Hstored Hid. unfold initSession, getItem. rewrite Hstored.
  destruct id; [done|reflexivity].
Qed.

Lemma initSession_synthesizes nowMs rnd36 st :
  (forall id, localStorage st !! sessionKey = Some id -> id = []) ->
  initSession nowMs rnd36 st =
    mkState (messages st) (messageText st) (JStr (synthesize nowMs rnd36))
            (<[sessionKey := synthesize nowMs rnd36]> (localStorage st))
            (effects st ++
               [SetItem sessionKey (synthesize nowMs rnd36);
                Emit "init_session"
                     (Some {[ "sessionId" := JStr (synthesize nowMs rnd36) ]}) true]).
Proof.
  intros Hnone. unfold initSession, getItem.
  destruct (localStorage st !! sessionKey) as [id|]; [|done].
  by rewrite (Hnone id eq_refl).
Qed.

(** After an activation a non-empty identifier is stored, and it is the
    current one. *)
Lemma initSession_stores nowMs rnd36 st :
  exists id, id <> [] /\
    localStorage (initSession nowMs rnd36 st) !! sessionKey = Some id /\
    currentSessionId (initSession nowMs rnd36 st) = JStr id.
Proof.
  unfold initSession, getItem.
  destruct (localStorage st !! sessionKey) as [[|c id]|] eqn:Hstored; simpl.
  - exists (synthesize nowMs rnd36). split; [apply synthesize_nonempty|].
    by rewrite lookup_insert_eq.
  - exists (c :: id). by rewrite Hstored.
  - exists (synthesize nowMs rnd36). split; [apply synthesize_nonempty|].
    by rewrite lookup_insert_eq.
Qed.

(** C5. An identifier found under the session key is reused as it is and
    nothing is written; when the key holds none (it is unset, or holds the
    empty string, which the code's test takes for none), the synthesized
    identifier is written under the key and only then is [init_session]
    emitted; and a second activation over the storage the first one left
    reuses the first one's identifier and writes nothing. *)
Theorem C5_session_identity :
  forall (nowMs : N) (rnd36 : jsstring) (st : State),
    (forall id, localStorage st !! sessionKey = Some id -> id <> [] ->
       currentSessionId (initSession nowMs rnd36 st) = JStr id /\
       localStorage (initSession nowMs rnd36 st) = localStorage st /\
       effects (initSession nowMs rnd36 st) =
         effects st ++ [Emit "init_session" (Some {[ "sessionId" := JStr id ]}) true]) /\
    ((forall id, localStorage st !! sessionKey = Some id -> id = []) ->
       currentSessionId (initSession nowMs rnd36 st) = JStr (synthesize nowMs rnd36) /\
       localStorage (initSession nowMs rnd36 st) !! sessionKey
         = Some (synthesize nowMs rnd36) /\
       effects (initSession nowMs rnd36 st) =
         effects st ++
           [SetItem sessionKey (synthesize nowMs rnd36);
            Emit "init_session"
                 (Some {[ "sessionId" := JStr (synthesize nowMs rnd36) ]}) true]) /\
    (forall (nowMs' : N) (rnd36' : jsstring) (st' : State),
       localStorage st' = localStorage (initSession nowMs rnd36 st) ->
       currentSessionId (initSession nowMs' rnd36' st')
         = currentSessionId (initSession nowMs rnd36 st) /\
       localStorage (initSession nowMs' rnd36' st') = localStorage st' /\
       effects (initSession nowMs' rnd36' st') =
         effects st' ++
           [Emit "init_session"
                 (Some {[ "sessionId" := currentSessionId (initSession nowMs rnd36 st) ]})
                 true]).
Proof.
  intros nowMs rnd36 st. split; [|split].
  - intros id Hstored Hid. by rewrite (initSession_reuses _ _ _ id Hstored Hid).
  - intros Hnone. rewrite (initSession_synthesizes _ _ _ Hnone). simpl.
    by rewrite lookup_insert_eq.
  - intros nowMs' rnd36' st' Hsame.
    destruct (initSession_stores nowMs rnd36 st) as (id & Hid & Hstored & Hcurrent).
    rewrite <- Hsame in Hstored.
    rewrite (initSession_reuses nowMs' rnd36' st' id Hstored Hid), Hcurrent. done.
Qed.

End SessionIdentity.

Section SessionIdentityExample.
Import ChatWindow.

(** A first visit synthesizes and stores an identifier; a reload at a later
    time reuses it; a stored identifier is reused; an empty string under
    the key is replaced. *)
Lemma C5_witness :
  localStorage (initSession 1703426439123 (lit "0.k7m8n9p2qrs") (mount ∅)) !! sessionKey
    = Some (lit "session_1703426439123_k7m8n9p2q") /\
  currentSessionId
    (initSession 1703426500000 (lit "0.zzzzzzzzzzzz")
       (mount (localStorage (initSession 1703426439123 (lit "0.k7m8n9p2qrs") (mount ∅)))))
    = JStr (lit "session_1703426439123_k7m8n9p2q") /\
  currentSessionId
    (initSession 1703426500000 (lit "0.zzzzzzzzzzzz")
       (mount {[ sessionKey := lit "session_1_abc" ]}))
    = JStr (lit "session_1_abc") /\
  localStorage
    (initSession 1703426500000 (lit "0.zzzzzzzzzzzz") (mount {[ sessionKey := [] ]}))
    !! sessionKey
    = Some (lit "session_1703426500000_zzzzzzzzz").
Proof.
  destruct (C5_session_identity 1703426439123 (lit "0.k7m8n9p2qrs") (mount ∅))
    as (_ & Hnone & Hsecond).
  assert (Hunset : forall id : jsstring,
             localStorage (mount ∅) !! sessionKey = Some id -> id = []).
  { intros id Hid. simpl in Hid. rewrite lookup_empty in Hid. discriminate. }
  destruct (Hnone Hunset) as (Hcurrent & Hstored & _).
  split; [|split; [|split]].
  - exact Hstored.
  - destruct (Hsecond 1703426500000 (lit "0.zzzzzzzzzzzz")
                (mount (localStorage
                          (initSession 1703426439123 (lit "0.k7m8n9p2qrs") (mount ∅)))))
      as (Hsame & _); [unfold mount; reflexivity|].
    rewrite Hsame. exact Hcurrent.
  - destruct (C5_session_identity 1703426500000 (lit "0.zzzzzzzzzzzz")
                (mount {[ sessionKey := lit "session_1_abc" ]})) as (Hreuse & _).
    destruct (Hreuse (lit "session_1_abc")) as (Hid & _);
      [apply lookup_singleton_eq | discriminate | exact Hid].
  - destruct (C5_session_identity 1703426500000 (lit "0.zzzzzzzzzzzz")
                (mount {[ sessionKey := [] ]})) as (_ & Hempty & _).
    destruct Hempty as (_ & Hwritten & _); [|exact Hwritten].
    intros id Hid. simpl in Hid. rewrite lookup_singleton_eq in Hid. congruence.
Defined.

End SessionIdentityExample.

(** ** The shared socket *)

Section SharedSocket.
Import Socket.

(** C6, refuted as stated.  The options listed under "Socket Client Setup"
    set no reconnection option at all. *)
Lemma C6_counterexample :
  reconnection clientSetup = None /\
  reconnectionAttempts clientSetup = None /\
  reconnectionDelay clientSetup = None /\
  ~ asSpecified clientSetup.
Proof.
  repeat split; try reflexivity.
  intros (_ & Hrec & _). discriminate Hrec.
Qed.

(** C6, as the code has it.  Both listings of the shared socket's options
    give the transports as websocket first, polling second.  The listing
    under "Connection Management" also enables reconnection, with at most 5
    attempts and a delay of 1000 ms; the listing under "Socket Client
    Setup" sets a timeout of 20000 ms and no reconnection option. *)
Theorem C6_socket_options :
  asSpecified connectionManagement /\
  reconnectionAttempts connectionManagement = Some (Finite 5) /\
  reconnectionDelay connectionManagement = Some 1000 /\
  websocketThenPolling clientSetup /\
  reconnection clientSetup = None /\
  reconnectionAttempts clientSetup = None /\
  reconnectionDelay clientSetup = None /\
  timeout clientSetup = Some 20000.
Proof.
  repeat split; try reflexivity.
  - by exists 5.
  - by exists 1000.
Qed.

End SharedSocket.

(** ** The completion call *)

Section Completion.
Import ChatGPT.

Lemma ok_false (r : Response) : ok r = false <-> status r < 200 \/ 299 < status r.
Proof.
  unfold ok. rewrite andb_false_iff, !N.leb_gt. reflexivity.
Qed.

Lemma generateResponse_misconfigured apiKey net userMessage history pg :
  truthy apiKey = false \/ apiKey = JStr placeholder ->
  generateResponse apiKey net userMessage history pg = (Thrown notConfigured, pg).
Proof.
  intros [Hfalsy | ->]; unfold generateResponse.
  - by rewrite Hfalsy.
  - rewrite (proj2 (strictEq_true _ _) eq_refl). by rewrite orb_true_r.
Qed.

Lemma generateResponse_configured key net userMessage history pg :
  key <> [] -> key <> placeholder ->
  generateResponse (JStr key) net userMessage history pg =
    (response ← await (net (completionRequest key userMessage history));
     if negb (ok response) then Thrown (apiError (status response))
     else data ← parsed response; firstChoice data,
     mkPage (widget pg) (dashboard pg)
            (requests pg ++ [completionRequest key userMessage history])).
Proof.
  intros Hkey Hplace. unfold generateResponse.
  rewrite (proj2 (truthy_JStr key) Hkey).
  rewrite (proj2 (strictEq_false (JStr key) (JStr placeholder))); [done|].
  congruence.
Qed.

(** No outcome of the call touches either view's state. *)
Lemma generateResponse_frame apiKey net userMessage history pg :
  widget (generateResponse apiKey net userMessage history pg).2 = widget pg /\
  dashboard (generateResponse apiKey net userMessage history pg).2 = dashboard pg.
Proof.
  unfold generateResponse.
  destruct (negb (truthy apiKey) || strictEq apiKey (JStr placeholder)); [done|].
  by destruct apiKey.
Qed.

(** C7. With the API key missing or left at the placeholder the call
    throws "OpenAI API key is not configured" and the page is as it was;
    with a response of a status outside 200-299 it throws "OpenAI API
    error: <status>"; the message sequence and the roster are the same
    after the failure as before. *)
Theorem C7_generateResponse_fails :
  forall (apiKey : JsVal) (net : Request -> Outcome) (userMessage : JsVal)
         (history : list (gmap string JsVal)) (pg : Page),
    (truthy apiKey = false \/ apiKey = JStr placeholder ->
       generateResponse apiKey net userMessage history pg = (Thrown notConfigured, pg)) /\
    (forall key r,
       apiKey = JStr key -> key <> [] -> key <> placeholder ->
       net (completionRequest key userMessage history) = Fulfilled r ->
       status r < 200 \/ 299 < status r ->
       (generateResponse apiKey net userMessage history pg).1
         = Thrown (apiError (status r)) /\
       ChatWindow.messages (widget (generateResponse apiKey net userMessage history pg).2)
         = ChatWindow.messages (widget pg) /\
       AdminDashboard.sessionMessages
         (dashboard (generateResponse apiKey net userMessage history pg).2)
         = AdminDashboard.sessionMessages (dashboard pg) /\
       AdminDashboard.sessions (dashboard (generateResponse apiKey net userMessage history pg).2)
         = AdminDashboard.sessions (dashboard pg)).
Proof.
  intros apiKey net userMessage history pg. split.
  - apply generateResponse_misconfigured.
  - intros key r -> Hkey Hplace Hnet Hstatus.
    destruct (generateResponse_frame (JStr key) net userMessage history pg) as [-> ->].
    split; [|done].
    rewrite generateResponse_configured by done. simpl.
    rewrite Hnet. simpl. by rewrite (proj2 (ok_false r) Hstatus).
Qed.

(** No key, the placeholder key, and a 429 answer to a configured key. *)
Lemma C7_witness :
  generateResponse JUndefined (answering tooManyRequests) (JStr (lit "Hi")) [] freshPage
    = (Thrown notConfigured, freshPage) /\
  generateResponse (JStr placeholder) (answering tooManyRequests) (JStr (lit "Hi")) [] freshPage
    = (Thrown notConfigured, freshPage) /\
  (generateResponse (JStr (lit "sk-proj-development-key")) (answering tooManyRequests)
                    (JStr (lit "Hi")) [] freshPage).1
    = Thrown (mkError PlainError (lit "OpenAI API error: 429")).
Proof.
  split; [|split].
  - apply (proj1 (C7_generateResponse_fails JUndefined (answering tooManyRequests)
                    (JStr (lit "Hi")) [] freshPage)).
    left. reflexivity.
  - apply (proj1 (C7_generateResponse_fails (JStr placeholder) (answering tooManyRequests)
                    (JStr (lit "Hi")) [] freshPage)).
    right. reflexivity.
  - destruct (proj2 (C7_generateResponse_fails (JStr (lit "sk-proj-development-key"))
                       (answering tooManyRequests) (JStr (lit "Hi")) [] freshPage)
                    (lit "sk-proj-development-key") tooManyRequests)
      as (Hthrown & _).
    + reflexivity.
    + discriminate.
    + vm_compute. discriminate.
    + reflexivity.
    + right. reflexivity.
    + exact Hthrown.
Defined.

End Completion.

Section CompletionMessages.
Import ChatGPT.

(** C10. The request the call sends carries one system message, then the
    last min(5, length) entries of the history in order, then one user
    message whose content is the user's message: min(5, length) + 2
    messages in all. *)
Theorem C10_completion_messages :
  forall (key : jsstring) (net : Request -> Outcome) (userMessage : JsVal)
         (history : list (gmap string JsVal)) (pg : Page),
    key <> [] -> key <> placeholder ->
    exists request completion older,
      requests (generateResponse (JStr key) net userMessage history pg).2
        = requests pg ++ [request] /\
      body request = Some completion /\
      history = older ++ sliceLast 5 history /\
      length (sliceLast 5 history) = Nat.min 5 (length history) /\
      Http.messages completion
        = [systemMessage] ++ sliceLast 5 history ++ [userEntry userMessage] /\
      get "role" systemMessage = JStr (lit "system") /\
      get "role" (userEntry userMessage) = JStr (lit "user") /\
      get "content" (userEntry userMessage) = userMessage /\
      length (Http.messages completion) = (Nat.min 5 (length history) + 2)%nat.
Proof.
  intros key net userMessage history pg Hkey Hplace.
  exists (completionRequest key userMessage history).
  exists (mkCompletion (lit "gpt-3.5-turbo") (buildMessages userMessage history)
                       500 (7 # 10)).
  exists (take (length history - 5) history).
  rewrite generateResponse_configured by done.
  split; [reflexivity|]. split; [reflexivity|].
  split; [apply sliceLast_suffix|].
  split; [apply length_sliceLast|].
  split; [reflexivity|].
  split; [apply get_insert_eq|].
  split; [apply get_insert_eq|].
  split.
  - unfold get, userEntry. by rewrite lookup_insert_ne, lookup_singleton_eq.
  - cbn [Http.messages]. unfold buildMessages.
    rewrite !length_app, length_sliceLast. cbn [length]. lia.
Qed.

(** Seven turns of history: the request carries turns 3 to 7 between the
    system message and the user's message. *)
Lemma C10_witness :
  exists request completion,
    requests (generateResponse (JStr (lit "sk-proj-development-key"))
                (answering tooManyRequests) (JStr (lit "8")) sevenTurns freshPage).2
      = [request] /\
    body request = Some completion /\
    Http.messages completion =
      [ systemMessage;
        turn "user" "3"; turn "assistant" "4"; turn "user" "5"; turn "assistant" "6";
        turn "user" "7";
        userEntry (JStr (lit "8")) ] /\
    length (Http.messages completion) = 7%nat.
Proof.
  destruct (C10_completion_messages (lit "sk-proj-development-key")
              (answering tooManyRequests) (JStr (lit "8")) sevenTurns freshPage)
    as (request & completion & older & Hsent & Hbody & _ & _ & Hmessages & _ & _ & _ & Hlen).
  - discriminate.
  - vm_compute. discriminate.
  - exists request, completion. split; [exact Hsent|]. split; [exact Hbody|].
    split; [exact Hmessages | exact Hlen].
Defined.

End CompletionMessages.

(** ** The retrieval calls *)

Section Retrieval.
Import ChatApi.

(** C8. Whatever the status of the response, [getChats] and
    [getChatMessages] resolve to its parsed JSON body. *)
Theorem C8_retrieval_returns_any_body :
  forall (net : Request -> Outcome) (r : Response) (j : Json),
    json r = Some j ->
    (net (ChatApi.get (lit "http://localhost:4000/api/chats")) = Fulfilled r ->
       getChats net = Resolved j) /\
    (forall sessionId,
       net (ChatApi.get (lit "http://localhost:4000/api/chats/" ++ toString sessionId))
         = Fulfilled r ->
       getChatMessages net sessionId = Resolved j).
Proof.
  intros net r j Hjson. split.
  - intros Hnet. unfold getChats. rewrite Hnet. simpl. unfold parsed. by rewrite Hjson.
  - intros sessionId Hnet. unfold getChatMessages. rewrite Hnet. simpl.
    unfold parsed. by rewrite Hjson.
Qed.

(** A 500 answer with an error object resolves to that object. *)
Lemma C8_witness :
  status ChatGPT.serverError = 500 /\
  getChats (ChatGPT.answering ChatGPT.serverError)
    = Resolved (ChatGPT.errorJson "Internal Server Error") /\
  getChatMessages (ChatGPT.answering ChatGPT.serverError) (JStr (lit "session_1_abc"))
    = Resolved (ChatGPT.errorJson "Internal Server Error").
Proof.
  destruct (C8_retrieval_returns_any_body (ChatGPT.answering ChatGPT.serverError)
              ChatGPT.serverError (ChatGPT.errorJson "Internal Server Error") eq_refl)
    as (Hchats & Hmessages).
  split; [reflexivity|]. split.
  - apply Hchats. reflexivity.
  - apply Hmessages. reflexivity.
Defined.

End Retrieval.

(** ** The operator's message bubble *)

Section Bubble.
Import MessageBubble.

Lemma textContent_child (v : JsVal) : flat_map textContent (child v) = shownText v.
Proof. destruct v; simpl; by rewrite ?app_nil_r. Qed.

(** C9. The bubble's body is the message's [text] and its timestamp the
    message's [timestamp]; a message that has [content] and [createdAt]
    but neither [text] nor [timestamp] renders an empty body and an empty
    timestamp. *)
Theorem C9_bubble_reads_text_and_timestamp :
  forall (message : gmap string JsVal) (isAdmin : bool),
    renderedBody message isAdmin = Some (shownText (get "text" message)) /\
    renderedTimestamp message isAdmin = Some (shownText (get "timestamp" message)) /\
    (message !! "text" = None -> message !! "timestamp" = None ->
       renderedBody message isAdmin = Some [] /\
       renderedTimestamp message isAdmin = Some []).
Proof.
  intros message isAdmin.
  assert (Hbody : renderedBody message isAdmin = Some (shownText (get "text" message))).
  { unfold renderedBody, MessageBubble. simpl. by rewrite textContent_child. }
  assert (Hstamp : renderedTimestamp message isAdmin
                   = Some (shownText (get "timestamp" message))).
  { unfold renderedTimestamp, MessageBubble. simpl. by rewrite textContent_child. }
  split; [done|]. split; [done|].
  intros Htext Htimestamp. rewrite Hbody, Hstamp.
  by rewrite (get_absent _ _ Htext), (get_absent _ _ Htimestamp).
Qed.

(** The widget's "Hello" entry, shaped as the data model's message, in the
    operator's bubble. *)
Lemma C9_witness :
  renderedBody Conversation.hello true = Some [] /\
  renderedTimestamp Conversation.hello true = Some [] /\
  get "content" Conversation.hello = JStr (lit "Hello").
Proof.
  destruct (C9_bubble_reads_text_and_timestamp Conversation.hello true)
    as (_ & _ & Hempty).
  destruct Hempty as (Hbody & Hstamp); [reflexivity|reflexivity|].
  split; [exact Hbody|]. split; [exact Hstamp|reflexivity].
Defined.

End Bubble.

(** * Further properties of the code *)

(** ** Trimming *)

Section Trim.





Lemma trim_nil : trim [] = [].
Proof. reflexivity. Qed.

End Trim.

(** ** sendMessage and sendReply, call by call *)

Section Sending.



(** X2. Submitting again without typing changes nothing: whatever the
    input was, a second [sendMessage] (or [sendReply]) right after the
    first leaves the state the first one produced, so one text is never
    shown or transmitted twice by a repeated submit. *)
Theorem resubmitting_is_a_no_op :
  (forall (now now' : jsstring) (st : ChatWindow.State),
     ChatWindow.sendMessage now' (ChatWindow.sendMessage now st)
       = ChatWindow.sendMessage now st) /\
  (forall (now now' : jsstring) (st : AdminDashboard.State),
     AdminDashboard.sendReply now' (AdminDashboard.sendReply now st)
       = AdminDashboard.sendReply now st).
Proof.
  split; intros now now' st.
  - unfold ChatWindow.sendMessage.
    destruct (truthy (JStr (trim (ChatWindow.messageText st)))) eqn:E.
    + cbn [ChatWindow.messageText]. by rewrite trim_nil.
    + by rewrite E.
  - unfold AdminDashboard.sendReply.
    destruct (truthy (JStr (trim (AdminDashboard.replyText st)))) eqn:E;
      destruct (AdminDashboard.selectedSession st) eqn:Hsel;
      rewrite ?E, ?Hsel; reflexivity.
Qed.

End Sending.

(** ** Mixed runs of the widget *)

Section WidgetRuns.
Import ChatWindow Conversation Transmissions.

Lemma mergeIncoming_frame m st :
  effects (mergeIncoming m st) = effects st /\
  currentSessionId (mergeIncoming m st) = currentSessionId st /\
  localStorage (mergeIncoming m st) = localStorage st.
Proof.
  unfold mergeIncoming, handleMessage.
  by destruct (strictEq (get "sender" m) (JStr peerRole)).
Qed.

Lemma appendLocal_storage content now st :
  localStorage (appendLocal content now st) = localStorage st.
Proof.
  unfold appendLocal, sendMessage. simpl. by destruct (trim content).
Qed.

Lemma step_frame st e :
  effects (step st e) = effects st ++ emitted (currentSessionId st) e /\
  currentSessionId (step st e) = currentSessionId st /\
  localStorage (step st e) = localStorage st.
Proof.
  destruct e as [content now|m]; simpl.
  - split; [apply appendLocal_effects|].
    split; [apply appendLocal_sessionId|apply appendLocal_storage].
  - rewrite app_nil_r. apply mergeIncoming_frame.
Qed.

Lemma run_frame : forall (tr : list Event) (st : State),
  effects (run tr st) = effects st ++ flat_map (emitted (currentSessionId st)) tr /\
  currentSessionId (run tr st) = currentSessionId st /\
  localStorage (run tr st) = localStorage st.
Proof.
  induction tr as [|e tr IH]; intros st.
  - simpl. by rewrite app_nil_r.
  - destruct (step_frame st e) as (He & Hid & Hstore).
    destruct (IH (step st e)) as (IHe & IHid & IHstore).
    unfold run in *. simpl. rewrite IHe, IHid, IHstore, He, Hid, Hstore.
    by rewrite <- app_assoc.
Qed.

Lemma length_emitted sessionId tr :
  length (flat_map (emitted sessionId) tr) = length (localMessages tr).
Proof.
  induction tr as [|[content now|m] tr IH]; simpl; [done| |done].
  rewrite !length_app, IH. by destruct (blank content).
Qed.

(** X3. In any interleaving of submissions and deliveries, the widget
    emits exactly one [user_message] per non-blank submission, in call
    order and all under the session identifier it started with, so as many
    as it shows entries of its own; a delivery emits nothing, and neither
    kind of event writes to [localStorage] or changes the session
    identifier. *)
Theorem widget_run_transmissions :
  forall (tr : list Event) (st : State),
    effects (run tr st) = effects st ++ flat_map (emitted (currentSessionId st)) tr /\
    length (effects (run tr st)) = (length (effects st) + length (localMessages tr))%nat /\
    currentSessionId (run tr st) = currentSessionId st /\
    localStorage (run tr st) = localStorage st.
Proof.
  intros tr st. destruct (run_frame tr st) as (He & Hid & Hstore).
  split; [exact He|]. split; [|by split].
  by rewrite He, length_app, length_emitted.
Qed.

(** X4. The visible sequence only grows at its tail: what a run has
    rendered stays, entry for entry, a prefix of what any continuation of
    the run renders. *)
Theorem widget_sequence_is_append_only :
  forall (tr tr' : list Event) (st : State),
    messages (run tr st) `prefix_of` messages (run (tr ++ tr') st).
Proof.
  intros tr tr' st. rewrite !run_messages, flat_map_app, app_assoc.
  by apply prefix_app_r.
Qed.

(** X5. Neither path removes duplicates: a peer message delivered twice is
    shown twice, and the same text submitted twice at the same clock
    reading yields two equal entries. *)
Theorem widget_keeps_duplicates :
  forall (st : State),
    (forall m, get "sender" m = JStr peerRole ->
       messages (mergeIncoming m (mergeIncoming m st)) = messages st ++ [m; m]) /\
    (forall content now, blank content = false ->
       messages (appendLocal content now (appendLocal content now st))
         = messages st ++ [localMessage content now; localMessage content now]).
Proof.
  intros st. split.
  - intros m Hm. rewrite !mergeIncoming_messages. simpl. unfold fromPeer.
    rewrite Hm, (proj2 (strictEq_true _ _) eq_refl). by rewrite <- app_assoc.
  - intros content now Hblank. rewrite !appendLocal_messages. simpl.
    rewrite Hblank. by rewrite <- app_assoc.
Qed.

Lemma widget_keeps_duplicates_witness :
  messages (mergeIncoming hiThere (mergeIncoming hiThere (mount ∅))) = [hiThere; hiThere] /\
  messages (appendLocal (lit "Hello") (lit "2024-12-14T10:00:00.000Z")
              (appendLocal (lit "Hello") (lit "2024-12-14T10:00:00.000Z") (mount ∅)))
    = [hello; hello].
Proof.
  destruct (widget_keeps_duplicates (mount ∅)) as (Hpush & Hlocal).
  split.
  - apply (Hpush hiThere). reflexivity.
  - apply (Hlocal (lit "Hello") (lit "2024-12-14T10:00:00.000Z")). reflexivity.
Defined.

(** X6. Once the session effect has run, whatever the storage held
    before, the key holds a non-empty identifier, and every [user_message]
    a later run transmits carries exactly that identifier; the run leaves
    the stored identifier in place. *)
Theorem transmissions_carry_the_stored_identifier :
  forall (nowMs : N) (rnd36 : jsstring) (st : State) (tr : list Event),
    exists id,
      id <> [] /\
      localStorage (run tr (initSession nowMs rnd36 st)) !! sessionKey = Some id /\
      effects (run tr (initSession nowMs rnd36 st)) =
        effects (initSession nowMs rnd36 st) ++ flat_map (emitted (JStr id)) tr.
Proof.
  intros nowMs rnd36 st tr.
  destruct (initSession_stores nowMs rnd36 st) as (id & Hid & Hstored & Hcurrent).
  destruct (run_frame tr (initSession nowMs rnd36 st)) as (He & _ & Hstore).
  exists id. rewrite Hstore, He, Hcurrent. done.
Qed.

End WidgetRuns.

(** ** The synthesized identifier *)

Section Synthesis.
Import ChatWindow Transmissions.

Lemma lit_inj (s t : string) : lit s = lit t -> s = t.
Proof.
  revert t. induction s as [|a s IH]; intros [|b t]; simpl; try done.
  intros [= Hab Hst]. f_equal; [|by apply IH].
  rewrite <- (ascii_N_embedding a), <- (ascii_N_embedding b). by rewrite Hab.
Qed.

Lemma decimal_inj (n m : N) : decimal n = decimal m -> n = m.
Proof.
  unfold decimal. intros H. apply lit_inj in H.
  apply DecimalN.Unsigned.to_uint_inj.
  pose proof (NilEmpty.usu (N.to_uint n)) as Hn.
  pose proof (NilEmpty.usu (N.to_uint m)) as Hm.
  rewrite H in Hn. congruence.
Qed.

Lemma digits_of_uint (d : Decimal.uint) :
  forallb isDigit (lit (NilEmpty.string_of_uint d)) = true.
Proof. induction d; simpl; try done; exact IHd. Qed.

Lemma decimal_digits (n : N) : forallb isDigit (decimal n) = true.
Proof. apply digits_of_uint. Qed.

(** Two strings that agree after a run of digits closed by a non-digit
    have the same run of digits. *)
Lemma digits_then_stop (l1 l2 x y : jsstring) (a : N) :
  forallb isDigit l1 = true -> forallb isDigit l2 = true -> isDigit a = false ->
  l1 ++ a :: x = l2 ++ a :: y -> l1 = l2.
Proof.
  intros H1 H2 Ha. revert l2 H2.
  induction l1 as [|c l1 IH]; intros [|d l2] H2 Heq; simpl in *.
  - done.
  - injection Heq as -> _. apply andb_true_iff in H2 as [H2 _]. congruence.
  - injection Heq as -> _. apply andb_true_iff in H1 as [H1 _]. congruence.
  - injection Heq as -> Heq.
    apply andb_true_iff in H1 as [_ H1]. apply andb_true_iff in H2 as [_ H2].
    f_equal. by apply IH.
Qed.

(** X7. The synthesized identifier is "session_", the clock reading in
    decimal, "_", and at most nine characters of the random string; two
    identifiers synthesized at different clock readings differ, whatever
    the random strings were. *)
Theorem synthesize_separates_clock_readings :
  forall (nowMs nowMs' : N) (rnd36 rnd36' : jsstring),
    (exists suffix,
       synthesize nowMs rnd36 = lit "session_" ++ decimal nowMs ++ lit "_" ++ suffix /\
       (length suffix <= 9)%nat /\
       suffix `prefix_of` drop 2 rnd36) /\
    (synthesize nowMs rnd36 = synthesize nowMs' rnd36' -> nowMs = nowMs').
Proof.
  intros nowMs nowMs' rnd36 rnd36'. split.
  - exists (substr 2 9 rnd36). split; [done|]. unfold substr. split.
    + rewrite length_take. lia.
    + apply prefix_take.
  - unfold synthesize. intros H. apply app_inv_head in H.
    apply decimal_inj.
    apply (digits_then_stop _ _ (substr 2 9 rnd36) (substr 2 9 rnd36') 95);
      [apply decimal_digits | apply decimal_digits | reflexivity | exact H].
Qed.

(** A random string too short to give a suffix: the identifier ends in the
    underscore, and still tells the clock readings apart. *)
Lemma synthesize_separates_clock_readings_witness :
  synthesize 1703426439123 (lit "0") = lit "session_1703426439123_" /\
  synthesize 1703426439123 (lit "0.k7m8n9p2qrs") = lit "session_1703426439123_k7m8n9p2q" /\
  synthesize 1703426439123 (lit "0.k7m8n9p2qrs") <> synthesize 1703426439124 (lit "0.k7m8n9p2qrs").
Proof.
  split; [reflexivity|]. split; [reflexivity|].
  intros H.
  apply (proj2 (synthesize_separates_clock_readings 1703426439123 1703426439124
                  (lit "0.k7m8n9p2qrs") (lit "0.k7m8n9p2qrs"))) in H.
  discriminate H.
Defined.

End Synthesis.

(** ** The dashboard under roster pushes *)

Section DashboardRuns.
Import AdminDashboard Dashboard.











End DashboardRuns.

(** ** Failures of the retrieval calls *)

Section RetrievalFailures.
Import ChatApi.

(** X10. Neither retrieval call catches anything: when the network gives
    no response the call rejects with the network's own error, and when
    the body of a response (of any status) is not JSON it rejects with a
    SyntaxError. *)
Theorem retrieval_failures_propagate :
  forall (net : Request -> Outcome) (sessionId : JsVal),
    (forall e, net (ChatApi.get (lit "http://localhost:4000/api/chats")) = Rejected e ->
       getChats net = Thrown e) /\
    (forall r, net (ChatApi.get (lit "http://localhost:4000/api/chats")) = Fulfilled r ->
       json r = None ->
       exists e, getChats net = Thrown e /\ name e = SyntaxError) /\
    (forall e,
       net (ChatApi.get (lit "http://localhost:4000/api/chats/" ++ toString sessionId))
         = Rejected e ->
       getChatMessages net sessionId = Thrown e) /\
    (forall r,
       net (ChatApi.get (lit "http://localhost:4000/api/chats/" ++ toString sessionId))
         = Fulfilled r ->
       json r = None ->
       exists e, getChatMessages net sessionId = Thrown e /\ name e = SyntaxError).
Proof.
  intros net sessionId. unfold getChats, getChatMessages, parsed.
  split; [|split; [|split]].
  - by intros e ->.
  - intros r -> Hjson. simpl. rewrite Hjson. by eexists.
  - by intros e ->.
  - intros r -> Hjson. simpl. rewrite Hjson. by eexists.
Qed.

Lemma retrieval_failures_propagate_witness :
  getChats (fun _ => Rejected (mkError TypeError (lit "Failed to fetch")))
    = Thrown (mkError TypeError (lit "Failed to fetch")) /\
  exists e,
    getChatMessages
      (ChatGPT.answering (mkResponse 502 (lit "<html>Bad Gateway</html>") None))
      (JStr (lit "session_1_abc")) = Thrown e /\
    name e = SyntaxError.
Proof.
  split.
  - apply (proj1 (retrieval_failures_propagate
                    (fun _ => Rejected (mkError TypeError (lit "Failed to fetch")))
                    JUndefined)).
    reflexivity.
  - apply (proj2 (proj2 (proj2 (retrieval_failures_propagate
                    (ChatGPT.answering (mkResponse 502 (lit "<html>Bad Gateway</html>") None))
                    (JStr (lit "session_1_abc"))))) 
                 (mkResponse 502 (lit "<html>Bad Gateway</html>") None));
      reflexivity.
Defined.

End RetrievalFailures.

(** ** Outcomes of the completion call *)

Section CompletionOutcomes.
Import ChatGPT.

Lemma ok_true (r : Response) : ok r = true <-> 200 <= status r <= 299.
Proof. unfold ok. rewrite andb_true_iff, !N.leb_le. reflexivity. Qed.

Lemma generateResponse_answered key net userMessage history pg r :
  key <> [] -> key <> placeholder ->
  net (completionRequest key userMessage history) = Fulfilled r ->
  200 <= status r <= 299 ->
  (generateResponse (JStr key) net userMessage history pg).1
    = (data ← parsed r; firstChoice data).
Proof.
  intros Hkey Hplace Hnet Hok.
  rewrite generateResponse_configured by done. simpl. rewrite Hnet. simpl.
  by rewrite (proj2 (ok_true r) Hok).
Qed.

(** X11. With a configured key and a response of a status in 200-299 whose
    JSON body has a first choice with a string as its message content, the
    call resolves to that content trimmed; the one request it sent is on
    the page's log. *)
Theorem generateResponse_returns_trimmed_content :
  forall (key : jsstring) (net : Request -> Outcome) (userMessage : JsVal)
         (history : list (gmap string JsVal)) (pg : Page) (r : Response)
         members choice others message (content : jsstring),
    key <> [] -> key <> placeholder ->
    net (completionRequest key userMessage history) = Fulfilled r ->
    200 <= status r <= 299 ->
    json r = Some (JsonObj members) ->
    lastMember (lit "choices") members = Some (JsonArr (JsonObj choice :: others)) ->
    lastMember (lit "message") choice = Some (JsonObj message) ->
    lastMember (lit "content") message = Some (JsonStr content) ->
    generateResponse (JStr key) net userMessage history pg =
      (Resolved (trim content),
       mkPage (widget pg) (dashboard pg)
              (requests pg ++ [completionRequest key userMessage history])).
Proof.
  intros key net userMessage history pg r members choice others message content
         Hkey Hplace Hnet Hok Hjson Hchoices Hmessage Hcontent.
  rewrite generateResponse_configured by done. f_equal.
  rewrite Hnet. simpl. rewrite (proj2 (ok_true r) Hok). simpl.
  unfold parsed. rewrite Hjson. simpl.
  unfold firstChoice. simpl. rewrite Hchoices. simpl.
  fold (lit "message"). rewrite Hmessage. simpl.
  fold (lit "content"). rewrite Hcontent. done.
Qed.

End CompletionOutcomes.

Section CompletionOutcomeExamples.
Import ChatGPT Answers.

(** The service answers " Hi! How can I help? " with a line break: the
    call gives the text without the surrounding white space. *)
Lemma generateResponse_returns_trimmed_content_witness :
  (generateResponse (JStr (lit "sk-proj-development-key"))
     (answering (success (completion ([32] ++ lit "Hi! How can I help?" ++ [32; 10]))))
     (JStr (lit "Hello")) [] freshPage).1
    = Resolved (lit "Hi! How can I help?").
Proof.
  rewrite (generateResponse_returns_trimmed_content
             (lit "sk-proj-development-key")
             (answering (success (completion ([32] ++ lit "Hi! How can I help?" ++ [32; 10]))))
             (JStr (lit "Hello")) [] freshPage
             (success (completion ([32] ++ lit "Hi! How can I help?" ++ [32; 10])))
             (membersOf ([32] ++ lit "Hi! How can I help?" ++ [32; 10]))
             (choiceOf ([32] ++ lit "Hi! How can I help?" ++ [32; 10]))
             []
             (messageOf ([32] ++ lit "Hi! How can I help?" ++ [32; 10]))
             ([32] ++ lit "Hi! How can I help?" ++ [32; 10]));
    first [ reflexivity | discriminate | (vm_compute; discriminate) | idtac ].
  split; vm_compute; discriminate.
Defined.

End CompletionOutcomeExamples.

Section CompletionErrors.
Import ChatGPT.

(** X12. A response of a status in 200-299 whose JSON body is an object
    with no [choices] member, or with an empty [choices] array, makes the
    call throw a TypeError (reading a property of [undefined]), not one of
    its two descriptive errors. *)
Theorem generateResponse_without_choices_throws_TypeError :
  forall (key : jsstring) (net : Request -> Outcome) (userMessage : JsVal)
         (history : list (gmap string JsVal)) (pg : Page) (r : Response) members,
    key <> [] -> key <> placeholder ->
    net (completionRequest key userMessage history) = Fulfilled r ->
    200 <= status r <= 299 ->
    json r = Some (JsonObj members) ->
    lastMember (lit "choices") members = None \/
    lastMember (lit "choices") members = Some (JsonArr []) ->
    exists e,
      (generateResponse (JStr key) net userMessage history pg).1 = Thrown e /\
      name e = TypeError.
Proof.
  intros key net userMessage history pg r members Hkey Hplace Hnet Hok Hjson Hchoices.
  rewrite (generateResponse_answered key net userMessage history pg r) by done.
  unfold parsed. rewrite Hjson. simpl. unfold firstChoice. simpl.
  destruct Hchoices as [-> | ->]; simpl; by eexists.
Qed.

Lemma generateResponse_without_choices_throws_TypeError_witness :
  (exists e,
     (generateResponse (JStr (lit "sk-proj-development-key"))
        (answering (Answers.success Answers.noChoices)) (JStr (lit "Hello")) [] freshPage).1
       = Thrown e /\ name e = TypeError) /\
  (exists e,
     (generateResponse (JStr (lit "sk-proj-development-key"))
        (answering (Answers.success Answers.noChoicesMember)) (JStr (lit "Hello")) []
        freshPage).1
       = Thrown e /\ name e = TypeError).
Proof.
  split.
  - apply (generateResponse_without_choices_throws_TypeError
             (lit "sk-proj-development-key")
             (answering (Answers.success Answers.noChoices)) (JStr (lit "Hello")) []
             freshPage (Answers.success Answers.noChoices)
             [ (lit "choices", JsonArr []) ]);
      first [ reflexivity | discriminate | (vm_compute; discriminate) | idtac ].
    + split; vm_compute; discriminate.
    + right. reflexivity.
  - apply (generateResponse_without_choices_throws_TypeError
             (lit "sk-proj-development-key")
             (answering (Answers.success Answers.noChoicesMember)) (JStr (lit "Hello")) []
             freshPage (Answers.success Answers.noChoicesMember)
             [ (lit "id", JsonStr (lit "chatcmpl-1")) ]);
      first [ reflexivity | discriminate | (vm_compute; discriminate) | idtac ].
    + split; vm_compute; discriminate.
    + left. reflexivity.
Defined.

(** X13. The call's [catch] block rethrows: when the network gives no
    response the call throws the network's own error, and when the body of
    a 200-299 response is not JSON it throws a SyntaxError; in both cases
    the request has been sent, once.  A truthy key that is not a string
    throws a TypeError before any request is sent. *)
Theorem generateResponse_rethrows :
  forall (net : Request -> Outcome) (userMessage : JsVal)
         (history : list (gmap string JsVal)) (pg : Page),
    (forall key e,
       key <> [] -> key <> placeholder ->
       net (completionRequest key userMessage history) = Rejected e ->
       generateResponse (JStr key) net userMessage history pg =
         (Thrown e,
          mkPage (widget pg) (dashboard pg)
                 (requests pg ++ [completionRequest key userMessage history]))) /\
    (forall key r,
       key <> [] -> key <> placeholder ->
       net (completionRequest key userMessage history) = Fulfilled r ->
       200 <= status r <= 299 ->
       json r = None ->
       exists e,
         generateResponse (JStr key) net userMessage history pg =
           (Thrown e,
            mkPage (widget pg) (dashboard pg)
                   (requests pg ++ [completionRequest key userMessage history])) /\
         name e = SyntaxError) /\
    (exists e,
       generateResponse (JBool true) net userMessage history pg = (Thrown e, pg) /\
       name e = TypeError).
Proof.
  intros net userMessage history pg. split; [|split].
  - intros key e Hkey Hplace Hnet.
    rewrite generateResponse_configured by done. by rewrite Hnet.
  - intros key r Hkey Hplace Hnet Hok Hjson.
    rewrite generateResponse_configured by done. rewrite Hnet. simpl.
    rewrite (proj2 (ok_true r) Hok). simpl. unfold parsed. rewrite Hjson.
    by eexists.
  - by eexists.
Qed.

Lemma generateResponse_rethrows_witness :
  (generateResponse (JStr (lit "sk-proj-development-key"))
     (fun _ => Rejected (mkError TypeError (lit "Failed to fetch")))
     (JStr (lit "Hello")) [] freshPage).1
    = Thrown (mkError TypeError (lit "Failed to fetch")) /\
  exists e,
    (generateResponse (JStr (lit "sk-proj-development-key"))
       (answering (mkResponse 200 (lit "<html>ok</html>") None))
       (JStr (lit "Hello")) [] freshPage).1 = Thrown e /\
    name e = SyntaxError.
Proof.
  destruct (generateResponse_rethrows
              (fun _ => Rejected (mkError TypeError (lit "Failed to fetch")))
              (JStr (lit "Hello")) [] freshPage) as (Hrejected & _ & _).
  destruct (generateResponse_rethrows
              (answering (mkResponse 200 (lit "<html>ok</html>") None))
              (JStr (lit "Hello")) [] freshPage) as (_ & Hbody & _).
  split.
  - rewrite (Hrejected (lit "sk-proj-development-key")
                       (mkError TypeError (lit "Failed to fetch")));
      first [ reflexivity | discriminate | (vm_compute; discriminate) ].
  - destruct (Hbody (lit "sk-proj-development-key")
                    (mkResponse 200 (lit "<html>ok</html>") None)) as (e & He & Hname);
      first [ reflexivity | discriminate | (vm_compute; discriminate) | idtac ].
    + split; vm_compute; discriminate.
    + exists e. rewrite He. done.
Defined.

End CompletionErrors.

(** ** The whole bubble *)

Section BubbleText.
Import MessageBubble.

(** X14. The bubble is a function of the message's [text] and [timestamp]
    and of [isAdmin] alone: two messages that agree on those two fields
    render the same tree whatever their [sender], [content] or [createdAt],
    and all the text the bubble shows is the avatar letter ("A" for the
    operator's side, "U" otherwise), the text and the timestamp. *)
Theorem bubble_shows_only_text_and_timestamp :
  forall (message message' : gmap string JsVal) (isAdmin : bool),
    (get "text" message = get "text" message' ->
     get "timestamp" message = get "timestamp" message' ->
     MessageBubble message isAdmin = MessageBubble message' isAdmin) /\
    textContent (MessageBubble message isAdmin) =
      lit (if isAdmin then "A" else "U") ++
      shownText (get "text" message) ++ shownText (get "timestamp" message).
Proof.
  intros message message' isAdmin. split.
  - intros Htext Htimestamp. unfold MessageBubble. by rewrite Htext, Htimestamp.
  - unfold MessageBubble. cbn [textContent flat_map].
    rewrite !textContent_child, !app_nil_r. by destruct isAdmin.
Qed.

Lemma bubble_shows_only_text_and_timestamp_witness :
  MessageBubble (<["text" := JStr (lit "Hi")]> Conversation.hello) false
    = MessageBubble {[ "text" := JStr (lit "Hi") ]} false /\
  textContent (MessageBubble (<["text" := JStr (lit "Hi")]> Conversation.hello) false)
    = lit "UHi".
Proof.
  destruct (bubble_shows_only_text_and_timestamp
              (<["text" := JStr (lit "Hi")]> Conversation.hello)
              {[ "text" := JStr (lit "Hi") ]} false) as (Hsame & Htext).
  split.
  - apply Hsame; reflexivity.
  - exact Htext.
Defined.

End BubbleText.

(** ** The widget's own rendering *)

Section WidgetView.
Import ChatWindow Conversation ChatWindowView.

Lemma shown_roles e m :
  m ∈ shown e ->
  (fromSelf m = true /\ exists content, get "content" m = JStr content /\ content <> []) \/
  fromPeer m = true.
Proof.
  destruct e as [content now|m']; simpl.
  - destruct (blank content) eqn:Hblank; [by intros ?%elem_of_nil|].
    intros ->%list_elem_of_singleton. left. split; [apply fromSelf_localMessage|].
    exists (trim content). split.
    + unfold get, localMessage. by rewrite lookup_insert_ne, lookup_insert_eq.
    + apply truthy_JStr. unfold blank in Hblank. by apply negb_false_iff in Hblank.
  - destruct (fromPeer m') eqn:Hpeer; [|by intros ?%elem_of_nil].
    intros ->%list_elem_of_singleton. by right.
Qed.

(** X15. Every entry a fresh widget comes to show, by any interleaving of
    submissions and deliveries, is rendered on one of two sides: an entry
    of the user's own, right-aligned, with a non-empty text; or an entry
    of the operator's, left-aligned.  No entry of another sender is ever
    shown. *)
Theorem widget_entries_have_a_side :
  forall (formatTimestamp : JsVal -> jsstring) (storage : gmap string jsstring)
         (tr : list Event) (m : gmap string JsVal),
    m ∈ messages (run tr (mount storage)) ->
    (get "sender" m = JStr (lit "user") /\
     className (renderMessage formatTimestamp m) = "mb-4 text-right" /\
     exists content, get "content" m = JStr content /\ content <> []) \/
    (get "sender" m = JStr (lit "admin") /\
     className (renderMessage formatTimestamp m) = "mb-4 text-left").
Proof.
  intros formatTimestamp storage tr m Hm.
  rewrite run_messages in Hm. simpl in Hm.
  apply list_elem_of_In, in_flat_map in Hm as (e & _ & Hm).
  apply list_elem_of_In, shown_roles in Hm as [(Hself & Hcontent) | Hpeer].
  - left. apply strictEq_true in Hself. split; [exact Hself|]. split; [|done].
    unfold renderMessage, className. rewrite Hself.
    by rewrite (proj2 (strictEq_true _ _) eq_refl).
  - right. apply strictEq_true in Hpeer. split; [exact Hpeer|].
    unfold renderMessage, className. rewrite Hpeer.
    rewrite (proj2 (strictEq_false (JStr peerRole) (JStr (lit "user")))); [done|].
    intros H. symmetry in H. by apply user_is_not_admin in H.
Qed.

Lemma widget_entries_have_a_side_witness :
  className (renderMessage (fun _ => lit "10:00") hello) = "mb-4 text-right" /\
  className (renderMessage (fun _ => lit "10:00") hiThere) = "mb-4 text-left".
Proof.
  split.
  - destruct (widget_entries_have_a_side (fun _ => lit "10:00") ∅ crossing hello)
      as [(_ & Hright & _) | (Hsender & _)].
    + rewrite run_messages. simpl. set_solver.
    + exact Hright.
    + discriminate Hsender.
  - destruct (widget_entries_have_a_side (fun _ => lit "10:00") ∅ crossing hiThere)
      as [(Hsender & _) | (_ & Hleft)].
    + rewrite run_messages. simpl. set_solver.
    + discriminate Hsender.
    + exact Hleft.
Defined.

(** X16. After a non-blank submission, the server's echo of it (any pushed
    message whose sender is "user") leaves the sequence with the one entry
    under [handleMessage], and adds a second entry under the earlier
    subscriber of [message], which appends whatever is pushed. *)
Theorem echo_is_shown_once_now_twice_before :
  forall (content now : jsstring) (echo : gmap string JsVal) (st : State),
    blank content = false ->
    get "sender" echo = JStr (lit "user") ->
    messages (handleMessage echo (appendLocal content now st))
      = messages st ++ [localMessage content now] /\
    messages (Earlier.handleMessage echo (appendLocal content now st))
      = messages st ++ [localMessage content now; echo].
Proof.
  intros content now echo st Hblank Hecho. split.
  - change handleMessage with mergeIncoming.
    rewrite mergeIncoming_messages, appendLocal_messages. simpl.
    rewrite Hblank. unfold fromPeer. rewrite Hecho.
    rewrite (proj2 (strictEq_false (JStr (lit "user")) (JStr peerRole))
               user_is_not_admin).
    by rewrite app_nil_r.
  - unfold Earlier.handleMessage. simpl. rewrite appendLocal_messages. simpl.
    rewrite Hblank. by rewrite <- app_assoc.
Qed.

Lemma echo_is_shown_once_now_twice_before_witness :
  messages (handleMessage hello
              (appendLocal (lit "Hello") (lit "2024-12-14T10:00:00.000Z") (mount ∅)))
    = [hello] /\
  messages (Earlier.handleMessage hello
              (appendLocal (lit "Hello") (lit "2024-12-14T10:00:00.000Z") (mount ∅)))
    = [hello; hello].
Proof.
  apply (echo_is_shown_once_now_twice_before (lit "Hello")
           (lit "2024-12-14T10:00:00.000Z") hello (mount ∅)); reflexivity.
Defined.

End WidgetView.
